(** * react-native-codegen: the C++ TurboModule glue generator, and UserFlow

    A shallow embedding of
      packages/react-native-codegen/src/generators/modules/GenerateModuleCpp.js
      Libraries/Reliability/UserFlow.js
    JavaScript strings are [string], arrays are [list], objects used as
    ordered maps are association lists (in [Object.keys] order), a function
    that may [throw] returns a [result], and calls into the native entry
    points of [global] thread an abstract native world. *)

From Stdlib Require Import String Ascii List Arith Lia ZArith Bool.
From Stdlib Require Import Decimal DecimalFacts DecimalNat DecimalString.
Import ListNotations.
Open Scope string_scope.

(** ** JavaScript text *)

(** The line feed of a template literal and the double quote character. *)
Definition nl : string := String (ascii_of_nat 10) EmptyString.
Definition dq : string := String (ascii_of_nat 34) EmptyString.

(** [`${n}`] for a non-negative integer [n]: its decimal digits. *)
Definition string_of_nat (n : nat) : string :=
  NilZero.string_of_uint (Nat.to_uint n).

(** [`${x}`] for a property that may be missing: [undefined] prints as the
    word. *)
Definition js_string (x : option string) : string :=
  match x with
  | Some s => s
  | None => "undefined"
  end.

(** [xs.join(sep)]. *)
Definition join (sep : string) (xs : list string) : string :=
  String.concat sep xs.

(** ** Exceptions *)

(** What a [throw] carries: [new Error(message)], or the TypeError the
    engine raises when a property of [undefined] is read. *)
Inductive exn : Type :=
| Error (message : string)
| TypeError.

Inductive result (A : Type) : Type :=
| Ok (value : A)
| Throw (e : exn).
Arguments Ok {A} value.
Arguments Throw {A} e.

Definition bind {A B : Type} (m : result A) (k : A -> result B) : result B :=
  match m with
  | Ok a => k a
  | Throw e => Throw e
  end.

Notation "x <- m ;; k" := (bind m (fun x => k))
  (at level 61, m at next level, right associativity).

(** [xs.map((x, i) => f(x, i))] where [f] may throw: elements are visited
    left to right and the first exception aborts the whole map. [i] is the
    index of the head of [xs]. *)
Fixpoint mapi_from {A B : Type} (f : A -> nat -> result B)
         (i : nat) (xs : list A) : result (list B) :=
  match xs with
  | [] => Ok []
  | x :: xs' =>
      y <- f x i ;;
      ys <- mapi_from f (S i) xs' ;;
      Ok (y :: ys)
  end.

Definition mapi {A B : Type} (f : A -> nat -> result B) (xs : list A)
  : result (list B) :=
  mapi_from f 0 xs.

(** [xs.map(x => f(x))], same evaluation order. *)
Fixpoint mapM {A B : Type} (f : A -> result B) (xs : list A)
  : result (list B) :=
  match xs with
  | [] => Ok []
  | x :: xs' =>
      y <- f x ;;
      ys <- mapM f xs' ;;
      Ok (y :: ys)
  end.

(** [obj[key]] on an object kept as an association list. *)
Fixpoint lookup {A : Type} (key : string) (obj : list (string * A))
  : option A :=
  match obj with
  | [] => None
  | (k, v) :: obj' => if (k =? key)%string then Some v else lookup key obj'
  end.

(** ** The schema (CodegenSchema) *)

#[local] Set Warnings "-register-all".

(** A type annotation is an object with a [type] tag. The constructors are
    the variants of the schema format; [UnknownTypeAnnotation] is an object
    that carries nothing but a tag, whatever the tag is. *)
Inductive TypeAnnotation : Type :=
| ReservedTypeAnnotation (name : string)
| StringTypeAnnotation
| BooleanTypeAnnotation
| NumberTypeAnnotation
| FloatTypeAnnotation
| DoubleTypeAnnotation
| Int32TypeAnnotation
| ArrayTypeAnnotation (elementType : option TypeAnnotation)
| FunctionTypeAnnotation (params : list (string * TypeAnnotation))
                         (returnTypeAnnotation : TypeAnnotation)
| GenericObjectTypeAnnotation
| ObjectTypeAnnotation (properties : list (string * TypeAnnotation))
| TypeAliasTypeAnnotation (name : string)
| NullableTypeAnnotation (typeAnnotation : TypeAnnotation)
| VoidTypeAnnotation
| PromiseTypeAnnotation
| UnknownTypeAnnotation (type : string).

(** [x.type] *)
Definition ta_type (x : TypeAnnotation) : string :=
  match x with
  | ReservedTypeAnnotation _ => "ReservedTypeAnnotation"
  | StringTypeAnnotation => "StringTypeAnnotation"
  | BooleanTypeAnnotation => "BooleanTypeAnnotation"
  | NumberTypeAnnotation => "NumberTypeAnnotation"
  | FloatTypeAnnotation => "FloatTypeAnnotation"
  | DoubleTypeAnnotation => "DoubleTypeAnnotation"
  | Int32TypeAnnotation => "Int32TypeAnnotation"
  | ArrayTypeAnnotation _ => "ArrayTypeAnnotation"
  | FunctionTypeAnnotation _ _ => "FunctionTypeAnnotation"
  | GenericObjectTypeAnnotation => "GenericObjectTypeAnnotation"
  | ObjectTypeAnnotation _ => "ObjectTypeAnnotation"
  | TypeAliasTypeAnnotation _ => "TypeAliasTypeAnnotation"
  | NullableTypeAnnotation _ => "NullableTypeAnnotation"
  | VoidTypeAnnotation => "VoidTypeAnnotation"
  | PromiseTypeAnnotation => "PromiseTypeAnnotation"
  | UnknownTypeAnnotation type => type
  end.

(** [x.name]; [None] is [undefined]. *)
Definition ta_name (x : TypeAnnotation) : option string :=
  match x with
  | ReservedTypeAnnotation name => Some name
  | TypeAliasTypeAnnotation name => Some name
  | _ => None
  end.

(** [x.params] and [x.returnTypeAnnotation]; [None] is [undefined]. *)
Definition ta_params (x : TypeAnnotation)
  : option (list (string * TypeAnnotation)) :=
  match x with
  | FunctionTypeAnnotation params _ => Some params
  | _ => None
  end.

Definition ta_returnTypeAnnotation (x : TypeAnnotation)
  : option TypeAnnotation :=
  match x with
  | FunctionTypeAnnotation _ returnTypeAnnotation => Some returnTypeAnnotation
  | _ => None
  end.

(** [NamedShape<T>]: [{name, typeAnnotation}]. *)
Record NamedShape : Type := mkNamedShape {
  name : string;
  typeAnnotation : TypeAnnotation
}.

Definition Param : Type := NamedShape.
Definition NativeModulePropertyShape : Type := NamedShape.

(** The parameters of a function annotation, as [Param]s. *)
Definition params_of (ps : list (string * TypeAnnotation)) : list Param :=
  map (fun p => mkNamedShape (fst p) (snd p)) ps.

Definition NativeModuleAliasMap : Type := list (string * TypeAnnotation).

(** A native module of the schema: [{aliases, spec: {properties},
    moduleNames}]. *)
Record NativeModuleSchema : Type := mkNativeModuleSchema {
  aliases : NativeModuleAliasMap;
  properties : list NativeModulePropertyShape;
  moduleNames : list string
}.

(** [SchemaType]: [{modules: {[hasteModuleName]: module}}], the object's
    keys in iteration order. *)
Record SchemaType : Type := mkSchemaType {
  modules : list (string * NativeModuleSchema)
}.

Definition AliasResolver : Type := option string -> result TypeAnnotation.

(** ** Collaborators that live outside the generator *)

(** Modelled from the spec: [unwrapNullable] of parsers/flow/modules/utils
    is not among the sources. "Given any (possibly nullable) type
    annotation, returns the pair (inner type annotation, nullability
    flag). Pure, total, no error conditions - absence of nullability yields
    the same annotation unchanged and flag false"; "a doubly-wrapped
    annotation unwraps to the same inner type with nullability flag still
    true". *)
Fixpoint unwrapNullable (x : TypeAnnotation) : TypeAnnotation * bool :=
  match x with
  | NullableTypeAnnotation inner => (fst (unwrapNullable inner), true)
  | _ => (x, false)
  end.

(** Modelled from the spec: [createAliasResolver] of generators/modules/Utils
    is not among the sources. "Given a module's alias table, returns a
    lookup function from alias name to its underlying concrete type
    annotation. Identity lookup, no transitive chasing. Lookup of an unknown
    alias name is a fatal, surfaced error." A missing name is looked up
    under the key it prints as. *)
Definition createAliasResolver (aliases : NativeModuleAliasMap)
  : AliasResolver :=
  fun aliasName =>
    match lookup (js_string aliasName) aliases with
    | Some alias => Ok alias
    | None =>
        Throw (Error ("Unable to resolve type alias '"
                        ++ js_string aliasName ++ "'."))
    end.

(** Modelled from the spec: [getModules] of generators/modules/Utils is not
    among the sources. The driver "iterates all modules in the schema"; the
    result is the object of module specs, keys in schema order. *)
Definition getModules (schema : SchemaType)
  : list (string * NativeModuleSchema) :=
  modules schema.

(** ** GenerateModuleCpp.js *)

(** The identifier part
    [__hostFunction_${hasteModuleName}CxxSpecJSI_${methodName}] that
    [HostFunctionTemplate] declares and [ModuleTemplate] registers. *)
Definition hostFunctionName (hasteModuleName methodName : string) : string :=
  "__hostFunction_" ++ hasteModuleName ++ "CxxSpecJSI_" ++ methodName.

(** [methodCall] of [HostFunctionTemplate]. *)
Definition methodCall (hasteModuleName methodName : string)
           (args : list string) : string :=
  let methodCallArgs := join ", " ("rt" :: args) in
  "static_cast<" ++ hasteModuleName ++ "CxxSpecJSI *>(&turboModule)->"
    ++ methodName ++ "(" ++ methodCallArgs ++ ");".

(** The first line of a trampoline, up to and including its brace. *)
Definition hostFunctionHead (hasteModuleName methodName : string) : string :=
  "static jsi::Value " ++ hostFunctionName hasteModuleName methodName
    ++ "(jsi::Runtime &rt, TurboModule &turboModule, const jsi::Value* args, size_t count) {".

Definition HostFunctionTemplate (hasteModuleName methodName : string)
           (isVoid : bool) (args : list string) : string :=
  let methodCall := methodCall hasteModuleName methodName args in
  hostFunctionHead hasteModuleName methodName
    ++ (if isVoid then nl ++ "  " ++ methodCall else "")
    ++ nl ++ "  return "
    ++ (if isVoid then "jsi::Value::undefined();" else methodCall)
    ++ nl ++ "}".

(** One entry of [methods]: [{methodName, paramCount}]. *)
Record Method : Type := mkMethod {
  methodName : string;
  paramCount : nat
}.

(** The arrow function mapped over [methods] in [ModuleTemplate]. *)
Definition methodMapEntry (hasteModuleName : string) (m : Method) : string :=
  "  methodMap_[" ++ dq ++ methodName m ++ dq ++ "] = MethodMetadata {"
    ++ string_of_nat (paramCount m) ++ ", "
    ++ hostFunctionName hasteModuleName (methodName m) ++ "};".

(** [moduleName] is [moduleNames[0]], which is [undefined] on an empty
    array. *)
Definition ModuleTemplate (hasteModuleName : string)
           (hostFunctions : list string) (moduleName : option string)
           (methods : list Method) : string :=
  join nl hostFunctions ++ nl
    ++ nl
    ++ hasteModuleName ++ "CxxSpecJSI::" ++ hasteModuleName
    ++ "CxxSpecJSI(std::shared_ptr<CallInvoker> jsInvoker)" ++ nl
    ++ "  : TurboModule(" ++ dq ++ js_string moduleName ++ dq
    ++ ", jsInvoker) {" ++ nl
    ++ join nl (map (methodMapEntry hasteModuleName) methods) ++ nl
    ++ "}".

Definition FileTemplate (libraryName modules : string) : string :=
  "/**" ++ nl
    ++ " * This code was generated by [react-native-codegen](https://www.npmjs.com/package/react-native-codegen)." ++ nl
    ++ " *" ++ nl
    ++ " * Do not edit this file as changes may cause incorrect behavior and will be lost" ++ nl
    ++ " * once the code is regenerated." ++ nl
    ++ " *" ++ nl
    ++ " * " ++ "@" ++ "generated by codegen project: GenerateModuleH.js" ++ nl
    ++ " */" ++ nl
    ++ nl
    ++ "#include " ++ dq ++ libraryName ++ "JSI.h" ++ dq ++ nl
    ++ nl
    ++ "namespace facebook {" ++ nl
    ++ "namespace react {" ++ nl
    ++ nl
    ++ modules ++ nl
    ++ nl
    ++ nl
    ++ "} // namespace react" ++ nl
    ++ "} // namespace facebook" ++ nl.

(** [wrap] of [serializeArg], closed over [index] and [nullable]. *)
Definition wrap (index : nat) (nullable : bool) (suffix : string) : string :=
  let val := "args[" ++ string_of_nat index ++ "]" in
  let expression := val ++ suffix in
  if nullable then
    val ++ ".isNull() || " ++ val
      ++ ".isUndefined() ? std::nullopt : std::make_optional("
      ++ expression ++ ")"
  else expression.

(** The message of both [throw]s of [serializeArg]. *)
Definition unknownPropType (argName found : string) : exn :=
  Error ("Unknown prop type for " ++ dq ++ argName ++ ", found: "
           ++ found ++ dq).

(** Lines 112-115: an alias reference is replaced by what it resolves to. *)
Definition realTypeAnnotation (typeAnnotation : TypeAnnotation)
           (resolveAlias : AliasResolver) : result TypeAnnotation :=
  if ta_type typeAnnotation =? "TypeAliasTypeAnnotation"
  then resolveAlias (ta_name typeAnnotation)
  else Ok typeAnnotation.

Definition serializeArg (arg : Param) (index : nat)
           (resolveAlias : AliasResolver) : result string :=
  let nullableTypeAnnotation := typeAnnotation arg in
  let '(typeAnnotation, nullable) := unwrapNullable nullableTypeAnnotation in
  realTypeAnnotation <- realTypeAnnotation typeAnnotation resolveAlias ;;
  let wrap := wrap index nullable in
  let type := ta_type realTypeAnnotation in
  if type =? "ReservedTypeAnnotation" then
    let reserved := ta_name realTypeAnnotation in
    if match reserved with
       | Some n => n =? "RootTag"
       | None => false
       end
    then Ok (wrap ".getNumber()")
    else Throw (unknownPropType (name arg) (js_string reserved))
  else if type =? "StringTypeAnnotation" then Ok (wrap ".asString(rt)")
  else if type =? "BooleanTypeAnnotation" then Ok (wrap ".asBool()")
  else if type =? "NumberTypeAnnotation" then Ok (wrap ".asNumber()")
  else if type =? "FloatTypeAnnotation" then Ok (wrap ".asNumber()")
  else if type =? "DoubleTypeAnnotation" then Ok (wrap ".asNumber()")
  else if type =? "Int32TypeAnnotation" then Ok (wrap ".asNumber()")
  else if type =? "ArrayTypeAnnotation" then
    Ok (wrap ".asObject(rt).asArray(rt)")
  else if type =? "FunctionTypeAnnotation" then
    Ok (wrap ".asObject(rt).asFunction(rt)")
  else if type =? "GenericObjectTypeAnnotation" then Ok (wrap ".asObject(rt)")
  else if type =? "ObjectTypeAnnotation" then Ok (wrap ".asObject(rt)")
  else Throw (unknownPropType (name arg) type).

Definition serializePropertyIntoHostFunction (hasteModuleName : string)
           (property : NativeModulePropertyShape)
           (resolveAlias : AliasResolver) : result string :=
  let '(propertyTypeAnnotation, _) :=
    unwrapNullable (typeAnnotation property) in
  match ta_returnTypeAnnotation propertyTypeAnnotation with
  | None => Throw TypeError
  | Some returnTypeAnnotation =>
      let isVoid := ta_type returnTypeAnnotation =? "VoidTypeAnnotation" in
      match ta_params propertyTypeAnnotation with
      | None => Throw TypeError
      | Some params =>
          args <- mapi (fun p i => serializeArg p i resolveAlias)
                       (params_of params) ;;
          Ok (HostFunctionTemplate hasteModuleName (name property) isVoid args)
      end
  end.

(** The arrow function mapped over [properties] for [methods]
    (lines 219-225). *)
Definition methodOfProperty (property : NativeModulePropertyShape)
  : result Method :=
  let '(fn, _) := unwrapNullable (typeAnnotation property) in
  match ta_params fn with
  | None => Throw TypeError
  | Some params => Ok (mkMethod (name property) (List.length params))
  end.

(** The arrow function mapped over the module keys (lines 197-228), from
    the destructuring of [nativeModule] on: the text of one module. *)
Definition emitModule (hasteModuleName : string)
           (nativeModule : NativeModuleSchema) : result string :=
  let resolveAlias := createAliasResolver (aliases nativeModule) in
  hostFunctions <-
    mapM (fun property =>
            serializePropertyIntoHostFunction hasteModuleName property
                                              resolveAlias)
         (properties nativeModule) ;;
  methods <- mapM methodOfProperty (properties nativeModule) ;;
  Ok (ModuleTemplate hasteModuleName hostFunctions
                     (nth_error (moduleNames nativeModule) 0) methods).

(** The same arrow function from its first line: [nativeModules[key]] is
    read, and destructuring [undefined] is a TypeError. *)
Definition generateModule (nativeModules : list (string * NativeModuleSchema))
           (hasteModuleName : string) : result string :=
  match lookup hasteModuleName nativeModules with
  | None => Throw TypeError
  | Some nativeModule => emitModule hasteModuleName nativeModule
  end.

Definition FilesOutput : Type := list (string * string).

(** [assumeNonnull] defaults to [false] when it is left out. *)
Definition generate (libraryName : string) (schema : SchemaType)
           (packageName : option string) (assumeNonnull : option bool)
  : result FilesOutput :=
  let nativeModules := getModules schema in
  texts <- mapM (generateModule nativeModules) (map fst nativeModules) ;;
  let modules := join nl texts in
  let fileName := libraryName ++ "JSI-generated.cpp" in
  let replacedTemplate := FileTemplate libraryName modules in
  Ok [(fileName, replacedTemplate)].

(** ** The vocabulary of the serialization rules *)

(** The [case] labels of the outer [switch] of [serializeArg], the reserved
    one apart. *)
Definition matchedTypes : list string :=
  ["StringTypeAnnotation"; "BooleanTypeAnnotation"; "NumberTypeAnnotation";
   "FloatTypeAnnotation"; "DoubleTypeAnnotation"; "Int32TypeAnnotation";
   "ArrayTypeAnnotation"; "FunctionTypeAnnotation";
   "GenericObjectTypeAnnotation"; "ObjectTypeAnnotation"].

(** The four numeric labels. *)
Definition numericTypes : list string :=
  ["NumberTypeAnnotation"; "FloatTypeAnnotation"; "DoubleTypeAnnotation";
   "Int32TypeAnnotation"].

(** A resolved annotation has a rule when its tag is a [case] label, and,
    for the reserved tag, when its name is [RootTag]. *)
Definition has_rule (real : TypeAnnotation) : bool :=
  if ta_type real =? "ReservedTypeAnnotation" then
    match ta_name real with
    | Some n => n =? "RootTag"
    | None => false
    end
  else existsb (String.eqb (ta_type real)) matchedTypes.

(** What an annotation without a rule is reported as: the reserved name of
    a reserved annotation, the tag of any other. *)
Definition offending (real : TypeAnnotation) : string :=
  if ta_type real =? "ReservedTypeAnnotation"
  then js_string (ta_name real)
  else ta_type real.

(** The accessor chains that a rule appends to the boundary value. *)
Definition conversionSuffixes : list string :=
  [".getNumber()"; ".asString(rt)"; ".asBool()"; ".asNumber()";
   ".asObject(rt).asArray(rt)"; ".asObject(rt).asFunction(rt)";
   ".asObject(rt)"].

(** [args[i]], the boundary value at position [i]. *)
Definition boundaryValue (i : nat) : string :=
  "args[" ++ string_of_nat i ++ "]".

(** The conditional expression around a conversion [e] of position [i]. *)
Definition conditional (i : nat) (e : string) : string :=
  boundaryValue i ++ ".isNull() || " ++ boundaryValue i
    ++ ".isUndefined() ? std::nullopt : std::make_optional(" ++ e ++ ")".

(** The parameter sequence of a Property Spec: [params] of its function
    annotation, the nullable wrapper apart. *)
Definition propertyParams (property : NativeModulePropertyShape)
  : list (string * TypeAnnotation) :=
  match ta_params (fst (unwrapNullable (typeAnnotation property))) with
  | Some params => params
  | None => []
  end.

(** ** Worked schema: module [M] with [add(a: number, b: ?number): number] *)

Definition add_property : NativeModulePropertyShape :=
  mkNamedShape "add"
    (FunctionTypeAnnotation
       [("a", NumberTypeAnnotation);
        ("b", NullableTypeAnnotation NumberTypeAnnotation)]
       NumberTypeAnnotation).

Definition module_M : NativeModuleSchema :=
  mkNativeModuleSchema [] [add_property] ["M"].

Definition schema_M : SchemaType :=
  mkSchemaType [("M", module_M)].

(** The text that [emitModule] returns for [M]. *)
Definition text_M : string :=
  Eval vm_compute in
    match emitModule "M" module_M with
    | Ok text => text
    | Throw _ => ""
    end.

(** A module spec with every external name but the first dropped. *)
Definition firstNameOnly (nativeModule : NativeModuleSchema)
  : NativeModuleSchema :=
  mkNativeModuleSchema (aliases nativeModule) (properties nativeModule)
                       (firstn 1 (moduleNames nativeModule)).

(** ** UserFlow.js *)

Module UserFlow.

Section Native.

(** The state of the native side, which only the native entry points
    touch, and the payload of a point, which the wrapper never opens. *)
Variable World : Type.
Variable PointData : Type.

Definition AUTO_INSTANCE_KEY : Z := (-1)%Z.

Record FlowId : Type := mkFlowId {
  markerId : Z;
  instanceKey : Z
}.

Record StartOptions : Type := mkStartOptions {
  triggerSource : string;
  cancelOnBackground : bool
}.

(** The entry points that the native side may have installed on
    [global]; [None] is a missing (falsy) property. *)
Record Global : Type := mkGlobal {
  nativeUserFlowNextInstanceKey : option (Z -> World -> Z * World);
  nativeUserFlowStart :
    option (Z -> Z -> string -> bool -> World -> World);
  nativeUserFlowAddAnnotation :
    option (Z -> Z -> string -> string + bool -> World -> World);
  nativeUserFlowAddPoint :
    option (Z -> Z -> string -> option PointData -> World -> World);
  nativeUserFlowEndSuccess : option (Z -> Z -> World -> World);
  nativeUserFlowEndFail :
    option (Z -> Z -> string -> option string -> World -> World);
  nativeUserFlowEndCancel : option (Z -> Z -> string -> World -> World)
}.

Variable global : Global.

(** [instanceKey] is [None] when the argument is left out, and then
    defaults to [AUTO_INSTANCE_KEY]. *)
Definition newFlowId (markerId : Z) (instanceKey : option Z)
           (w : World) : FlowId * World :=
  let instanceKey :=
    match instanceKey with
    | Some k => k
    | None => AUTO_INSTANCE_KEY
    end in
  if (instanceKey =? AUTO_INSTANCE_KEY)%Z then
    match nativeUserFlowNextInstanceKey global with
    | Some nextInstanceKey =>
        let '(resolvedInstanceKey, w') := nextInstanceKey markerId w in
        (mkFlowId markerId resolvedInstanceKey, w')
    | None => (mkFlowId markerId 0%Z, w)
    end
  else (mkFlowId markerId instanceKey, w).

Definition start (flowId : FlowId) (options : StartOptions)
           (w : World) : World :=
  match nativeUserFlowStart global with
  | Some native =>
      native (markerId flowId) (instanceKey flowId)
             (triggerSource options) (cancelOnBackground options) w
  | None => w
  end.

Definition addAnnotation (flowId : FlowId) (annotationName : string)
           (annotationValue : string + bool) (w : World) : World :=
  match nativeUserFlowAddAnnotation global with
  | Some native =>
      native (markerId flowId) (instanceKey flowId)
             annotationName annotationValue w
  | None => w
  end.

(** [data] left out is [null], here [None]. *)
Definition addPoint (flowId : FlowId) (pointName : string)
           (data : option PointData) (w : World) : World :=
  match nativeUserFlowAddPoint global with
  | Some native =>
      native (markerId flowId) (instanceKey flowId) pointName data w
  | None => w
  end.

Definition endSuccess (flowId : FlowId) (w : World) : World :=
  match nativeUserFlowEndSuccess global with
  | Some native => native (markerId flowId) (instanceKey flowId) w
  | None => w
  end.

Definition endFailure (flowId : FlowId) (errorName : string)
           (debugInfo : option string) (w : World) : World :=
  match nativeUserFlowEndFail global with
  | Some native =>
      native (markerId flowId) (instanceKey flowId) errorName debugInfo w
  | None => w
  end.

Definition endCancel (flowId : FlowId) (cancelReason : string)
           (w : World) : World :=
  match nativeUserFlowEndCancel global with
  | Some native =>
      native (markerId flowId) (instanceKey flowId) cancelReason w
  | None => w
  end.

End Native.

Arguments mkGlobal {World PointData}.
Arguments newFlowId {World PointData}.
Arguments start {World PointData}.
Arguments addAnnotation {World PointData}.
Arguments addPoint {World PointData}.
Arguments endSuccess {World PointData}.
Arguments endFailure {World PointData}.
Arguments endCancel {World PointData}.

End UserFlow.

(** ** A native side that keeps a log *)

(** One call into the native side, with the arguments it received. *)
Inductive NativeCall : Type :=
| NextInstanceKey (markerId : Z)
| Start (markerId instanceKey : Z) (triggerSource : string)
        (cancelOnBackground : bool)
| AddAnnotation (markerId instanceKey : Z) (annotationName : string)
                (annotationValue : string + bool)
| AddPoint (markerId instanceKey : Z) (pointName : string)
           (data : option string)
| EndSuccess (markerId instanceKey : Z)
| EndFail (markerId instanceKey : Z) (errorName : string)
          (debugInfo : option string)
| EndCancel (markerId instanceKey : Z) (cancelReason : string).

(** Every entry point is installed and appends its call to the world, a
    log; instance keys are handed out from 100 on. *)
Definition recordingGlobal : UserFlow.Global (list NativeCall) string :=
  UserFlow.mkGlobal
    (Some (fun m w => ((100 + Z.of_nat (List.length w))%Z,
                       (w ++ [NextInstanceKey m])%list)))
    (Some (fun m k src c w => (w ++ [Start m k src c])%list))
    (Some (fun m k n v w => (w ++ [AddAnnotation m k n v])%list))
    (Some (fun m k n d w => (w ++ [AddPoint m k n d])%list))
    (Some (fun m k w => (w ++ [EndSuccess m k])%list))
    (Some (fun m k e d w => (w ++ [EndFail m k e d])%list))
    (Some (fun m k r w => (w ++ [EndCancel m k r])%list)).

(** No entry point is installed. *)
Definition bareGlobal : UserFlow.Global (list NativeCall) string :=
  UserFlow.mkGlobal None None None None None None None.

(** An operation on the native world is a pass-through to [entry] when it
    is the one call [call native] if [entry] holds [native], and leaves the
    world as it is if [entry] is missing. *)
Definition passThrough {World A : Type} (entry : option A)
           (call : A -> World -> World) (op : World -> World) : Prop :=
  match entry with
  | Some native => forall w, op w = call native w
  | None => forall w, op w = w
  end.

(** ** Decimal digits *)

(** The characters [0] to [9]. *)
Definition isDigit (c : ascii) : bool :=
  let n := nat_of_ascii c in Nat.leb 48 n && Nat.leb n 57.

Fixpoint allDigits (s : string) : bool :=
  match s with
  | EmptyString => true
  | String c s' => isDigit c && allDigits s'
  end.

(** * Properties *)

(** ** Text *)

Lemma append_assoc (a b c : string) : (a ++ b) ++ c = a ++ b ++ c.
Proof.
  induction a as [|ch a IH]; simpl; [reflexivity|].
  now rewrite IH.
Qed.

Lemma append_length (a b : string) :
  String.length (a ++ b) = String.length a + String.length b.
Proof.
  induction a as [|ch a IH]; simpl; [reflexivity|].
  now rewrite IH.
Qed.

Lemma append_cancel_l (a b c : string) : a ++ b = a ++ c -> b = c.
Proof.
  induction a as [|ch a IH]; simpl; intros H; [exact H|].
  injection H as H. now apply IH.
Qed.

(** Two texts that end in the same tail and are equal have equal heads. *)
Lemma append_cancel_r (a b t : string) : a ++ t = b ++ t -> a = b.
Proof.
  revert b; induction a as [|ch a IH]; intros [|ch' b] H; simpl in H.
  - reflexivity.
  - apply (f_equal String.length) in H. simpl in H.
    rewrite append_length in H. lia.
  - apply (f_equal String.length) in H. simpl in H.
    rewrite append_length in H. lia.
  - injection H as Hc H. subst ch'. f_equal. now apply IH.
Qed.

(** Distinct indices print as distinct digits, so distinct positions read
    distinct boundary values. *)
Lemma string_of_nat_inj (i j : nat) :
  string_of_nat i = string_of_nat j -> i = j.
Proof.
  assert (Hnn : forall n, Nat.to_uint n <> Nil).
  { intros n. rewrite <- (Unsigned.of_to n) at 1. rewrite Unsigned.to_of.
    apply unorm_nonnil. }
  unfold string_of_nat. intros H.
  apply (f_equal NilZero.uint_of_string) in H.
  rewrite !NilZero.usu in H by apply Hnn.
  injection H as H. now apply Unsigned.to_uint_inj.
Qed.

Lemma boundaryValue_inj (i j : nat) :
  boundaryValue i = boundaryValue j -> i = j.
Proof.
  unfold boundaryValue. intros H.
  apply append_cancel_l in H. apply append_cancel_r in H.
  now apply string_of_nat_inj.
Qed.

(** ** The exception monad and the maps *)

Lemma bind_Ok_inv {A B : Type} (m : result A) (k : A -> result B) (b : B) :
  bind m k = Ok b -> exists a, m = Ok a /\ k a = Ok b.
Proof.
  destruct m as [a|e]; simpl; intros H; [|discriminate].
  now exists a.
Qed.

Lemma mapM_ext {A B : Type} (f g : A -> result B) (xs : list A) :
  (forall x, In x xs -> f x = g x) -> mapM f xs = mapM g xs.
Proof.
  induction xs as [|x xs IH]; simpl; intros H; [reflexivity|].
  rewrite (H x) by now left.
  rewrite IH by (intros y Hy; apply H; now right).
  reflexivity.
Qed.

Lemma mapM_map {A B C : Type} (f : B -> result C) (g : A -> B)
      (xs : list A) :
  mapM f (map g xs) = mapM (fun x => f (g x)) xs.
Proof.
  induction xs as [|x xs IH]; simpl; [reflexivity|].
  now rewrite IH.
Qed.

(** A successful indexed map yields one result per element, the one at
    offset [j] computed from index [i + j]. *)
Lemma mapi_from_Ok {A B : Type} (f : A -> nat -> result B) :
  forall (xs : list A) (i : nat) (ys : list B),
    mapi_from f i xs = Ok ys ->
    List.length ys = List.length xs /\
    forall j x, nth_error xs j = Some x ->
                exists y, nth_error ys j = Some y /\ f x (i + j) = Ok y.
Proof.
  induction xs as [|x xs IH]; simpl; intros i ys H.
  - injection H as <-. split; [reflexivity|].
    intros [|j] x' Hx; discriminate.
  - apply bind_Ok_inv in H as (y & Hy & H).
    apply bind_Ok_inv in H as (ys' & Hys & H).
    injection H as <-.
    destruct (IH _ _ Hys) as [Hlen Hnth].
    split; [simpl; now rewrite Hlen|].
    intros [|j] x' Hx; simpl in Hx.
    + injection Hx as <-. exists y. rewrite Nat.add_0_r. now split.
    + destruct (Hnth j x' Hx) as (y' & Hy' & Hf).
      exists y'. split; [exact Hy'|].
      now rewrite Nat.add_succ_r.
Qed.

(** ** The worked schema, end to end *)

Example text_M_emitted :
  emitModule "M" module_M = Ok text_M
  /\ text_M =
     "static jsi::Value __hostFunction_MCxxSpecJSI_add(jsi::Runtime &rt, TurboModule &turboModule, const jsi::Value* args, size_t count) {" ++ nl
       ++ "  return static_cast<MCxxSpecJSI *>(&turboModule)->add(rt, args[0].asNumber(), args[1].isNull() || args[1].isUndefined() ? std::nullopt : std::make_optional(args[1].asNumber()));" ++ nl
       ++ "}" ++ nl
       ++ nl
       ++ "MCxxSpecJSI::MCxxSpecJSI(std::shared_ptr<CallInvoker> jsInvoker)" ++ nl
       ++ "  : TurboModule(" ++ dq ++ "M" ++ dq ++ ", jsInvoker) {" ++ nl
       ++ "  methodMap_[" ++ dq ++ "add" ++ dq ++ "] = MethodMetadata {2, __hostFunction_MCxxSpecJSI_add};" ++ nl
       ++ "}".
Proof. split; reflexivity. Qed.

Example generate_M :
  generate "Lib" schema_M None None =
  Ok [("LibJSI-generated.cpp", FileTemplate "Lib" text_M)].
Proof. reflexivity. Qed.

Example serializeArg_unknown_alias :
  serializeArg (mkNamedShape "p" (TypeAliasTypeAnnotation "Missing")) 0
               (createAliasResolver []) =
  Throw (Error "Unable to resolve type alias 'Missing'.").
Proof. reflexivity. Qed.

(** ** The nullable unwrapper *)

Lemma unwrapNullable_wrapped (t : TypeAnnotation) :
  unwrapNullable (NullableTypeAnnotation t) = (fst (unwrapNullable t), true).
Proof. reflexivity. Qed.

Lemma unwrapNullable_bare (t : TypeAnnotation) :
  snd (unwrapNullable t) = false -> unwrapNullable t = (t, false).
Proof. destruct t; simpl; intros H; (reflexivity || discriminate). Qed.

(** ** serializeArg *)

Lemma wrap_bare (i : nat) (suffix : string) :
  wrap i false suffix = boundaryValue i ++ suffix.
Proof. reflexivity. Qed.

Lemma wrap_nullable (i : nat) (suffix : string) :
  wrap i true suffix = conditional i (wrap i false suffix).
Proof. reflexivity. Qed.

(** Splits every test of the rule dispatch that is still undecided. *)
Ltac split_dispatch :=
  repeat match goal with
         | |- context [if ?b then _ else _] => destruct b eqn:?
         | H : context [if ?b then _ else _] |- _ => destruct b eqn:?
         end.

(** Whatever [serializeArg] returns is a rule's accessor chain applied to
    the boundary value of its own index, under the parameter's
    nullability. *)
Lemma serializeArg_Ok_inv (arg : Param) (index : nat)
      (resolveAlias : AliasResolver) (e : string) :
  serializeArg arg index resolveAlias = Ok e ->
  exists suffix,
    In suffix conversionSuffixes /\
    e = wrap index (snd (unwrapNullable (typeAnnotation arg))) suffix.
Proof.
  unfold serializeArg.
  destruct (unwrapNullable (typeAnnotation arg)) as [t nullable].
  destruct (realTypeAnnotation t resolveAlias) as [real|ex];
    cbn [bind snd]; [|discriminate].
  intros H. split_dispatch; try discriminate;
    injection H as <-; eexists; (split; [|reflexivity]);
    unfold conversionSuffixes; simpl; tauto.
Qed.

(** A resolved annotation with a rule is serialized. *)
Lemma serializeArg_has_rule (arg : Param) (index : nat)
      (resolveAlias : AliasResolver) (t real : TypeAnnotation)
      (nullable : bool) :
  unwrapNullable (typeAnnotation arg) = (t, nullable) ->
  realTypeAnnotation t resolveAlias = Ok real ->
  has_rule real = true ->
  exists suffix,
    In suffix conversionSuffixes /\
    serializeArg arg index resolveAlias = Ok (wrap index nullable suffix).
Proof.
  intros Hu Hr Hrule. unfold serializeArg. rewrite Hu, Hr. cbn [bind].
  unfold has_rule in Hrule.
  destruct (ta_type real =? "ReservedTypeAnnotation") eqn:Hres.
  - destruct (ta_name real) as [n|]; [|discriminate]. rewrite Hrule.
    eexists; split; [|reflexivity]. simpl; tauto.
  - unfold matchedTypes in Hrule. cbn [existsb] in Hrule.
    split_dispatch; try (eexists; split; [|reflexivity]; simpl; tauto).
    discriminate.
Qed.

(** C1. A parameter whose unwrapped, alias-resolved annotation has no
    serialization rule (a tag that is no [case] label, or the reserved tag
    with a name other than [RootTag]) makes [serializeArg] throw an [Error]
    whose message is [Unknown prop type for "<name>, found: <offending>"],
    [<offending>] being the tag or the reserved name; no expression is
    returned. *)
Theorem serializeArg_unmatched_throws (arg : Param) (index : nat)
        (resolveAlias : AliasResolver) (t real : TypeAnnotation)
        (nullable : bool) :
  unwrapNullable (typeAnnotation arg) = (t, nullable) ->
  realTypeAnnotation t resolveAlias = Ok real ->
  has_rule real = false ->
  serializeArg arg index resolveAlias =
    Throw (Error ("Unknown prop type for " ++ dq ++ name arg ++ ", found: "
                    ++ offending real ++ dq))
  /\ forall e, serializeArg arg index resolveAlias <> Ok e.
Proof.
  intros Hu Hr Hrule.
  assert (Hthrow : serializeArg arg index resolveAlias =
                   Throw (unknownPropType (name arg) (offending real))).
  { unfold serializeArg. rewrite Hu, Hr. cbn [bind].
    unfold has_rule in Hrule. unfold offending.
    destruct (ta_type real =? "ReservedTypeAnnotation") eqn:Hres.
    - destruct (ta_name real) as [n|]; [rewrite Hrule|]; reflexivity.
    - unfold matchedTypes in Hrule. cbn [existsb] in Hrule.
      repeat (let Hhd := fresh "Hhd" in
              apply orb_false_iff in Hrule as [Hhd Hrule]; rewrite Hhd).
      reflexivity. }
  split; [exact Hthrow|].
  intros e He. rewrite Hthrow in He. discriminate.
Qed.

(** C1, at a reserved annotation of unknown name behind an alias and a
    nullable wrapper. *)
Lemma serializeArg_unmatched_throws_witness :
  serializeArg
    (mkNamedShape "tag" (NullableTypeAnnotation (TypeAliasTypeAnnotation "T")))
    3 (createAliasResolver [("T", ReservedTypeAnnotation "SurfaceId")]) =
  Throw (Error ("Unknown prop type for " ++ dq ++ "tag" ++ ", found: "
                  ++ "SurfaceId" ++ dq)).
Proof.
  apply (serializeArg_unmatched_throws
           (mkNamedShape "tag"
              (NullableTypeAnnotation (TypeAliasTypeAnnotation "T")))
           3 (createAliasResolver [("T", ReservedTypeAnnotation "SurfaceId")])
           (TypeAliasTypeAnnotation "T") (ReservedTypeAnnotation "SurfaceId")
           true); reflexivity.
Defined.

(** A numeric tag is serialized with the numeric accessor. *)
Lemma serializeArg_numeric (arg : Param) (index : nat)
      (resolveAlias : AliasResolver) (t real : TypeAnnotation)
      (nullable : bool) :
  unwrapNullable (typeAnnotation arg) = (t, nullable) ->
  realTypeAnnotation t resolveAlias = Ok real ->
  In (ta_type real) numericTypes ->
  serializeArg arg index resolveAlias = Ok (wrap index nullable ".asNumber()").
Proof.
  intros Hu Hr Hin. unfold serializeArg. rewrite Hu, Hr. cbn [bind].
  unfold numericTypes in Hin. simpl in Hin.
  destruct Hin as [<-|[<-|[<-|[<-|[]]]]]; reflexivity.
Qed.

(** C2, as amended. When the annotation [t] under the nullable wrapper is
    not itself wrapped and, once resolved, has a serialization rule,
    [serializeArg] returns for the wrapped parameter at index [i] the one
    conditional expression
    [args[i].isNull() || args[i].isUndefined() ? std::nullopt :
     std::make_optional(args[i]<suffix>)],
    and for the same parameter without the wrapper only the conversion
    [args[i]<suffix>]. *)
Theorem serializeArg_nullable_conditional (argName : string) (i : nat)
        (t real : TypeAnnotation) (resolveAlias : AliasResolver) :
  snd (unwrapNullable t) = false ->
  realTypeAnnotation t resolveAlias = Ok real ->
  has_rule real = true ->
  exists suffix,
    In suffix conversionSuffixes /\
    serializeArg (mkNamedShape argName t) i resolveAlias =
      Ok (boundaryValue i ++ suffix) /\
    serializeArg (mkNamedShape argName (NullableTypeAnnotation t)) i
                 resolveAlias =
      Ok (boundaryValue i ++ ".isNull() || " ++ boundaryValue i
            ++ ".isUndefined() ? std::nullopt : std::make_optional("
            ++ (boundaryValue i ++ suffix) ++ ")").
Proof.
  intros Hbare Hr Hrule.
  apply unwrapNullable_bare in Hbare.
  destruct (serializeArg_has_rule (mkNamedShape argName t) i resolveAlias
              t real false Hbare Hr Hrule) as (suffix & Hin & Hs).
  exists suffix. split; [exact Hin|]. split; [exact Hs|].
  assert (Hw : unwrapNullable
                 (typeAnnotation
                    (mkNamedShape argName (NullableTypeAnnotation t)))
               = (t, true)).
  { cbn [typeAnnotation]. now rewrite unwrapNullable_wrapped, Hbare. }
  destruct (serializeArg_has_rule _ i resolveAlias t real true Hw Hr Hrule)
    as (suffix' & _ & Hs').
  (* both runs take the same branch of the dispatch *)
  revert Hs Hs'. unfold serializeArg. cbn [typeAnnotation name].
  rewrite unwrapNullable_wrapped, Hbare. cbn [fst]. rewrite Hr. cbn [bind].
  split_dispatch; intros Hs Hs'; try discriminate;
    injection Hs as Hs; apply append_cancel_l in Hs; subst suffix;
    reflexivity.
Qed.

(** C2, at a nullable string at index 2. *)
Lemma serializeArg_nullable_conditional_witness :
  exists suffix,
    In suffix conversionSuffixes /\
    serializeArg (mkNamedShape "title" StringTypeAnnotation) 2
                 (createAliasResolver []) =
      Ok (boundaryValue 2 ++ suffix) /\
    serializeArg
      (mkNamedShape "title" (NullableTypeAnnotation StringTypeAnnotation)) 2
      (createAliasResolver []) =
      Ok (boundaryValue 2 ++ ".isNull() || " ++ boundaryValue 2
            ++ ".isUndefined() ? std::nullopt : std::make_optional("
            ++ (boundaryValue 2 ++ suffix) ++ ")").
Proof.
  apply (serializeArg_nullable_conditional "title" 2 StringTypeAnnotation
           StringTypeAnnotation (createAliasResolver []));
    reflexivity.
Defined.

(** C2, as first stated, fails: a nullable wrapper around a reserved
    annotation of unknown name yields no expression at all. *)
Lemma serializeArg_nullable_may_throw :
  serializeArg
    (mkNamedShape "tag"
       (NullableTypeAnnotation (ReservedTypeAnnotation "SurfaceId")))
    0 (createAliasResolver []) =
  Throw (Error ("Unknown prop type for " ++ dq ++ "tag" ++ ", found: "
                  ++ "SurfaceId" ++ dq))
  /\ ~ exists e,
        serializeArg
          (mkNamedShape "tag"
             (NullableTypeAnnotation (ReservedTypeAnnotation "SurfaceId")))
          0 (createAliasResolver []) = Ok e.
Proof.
  split; [reflexivity|].
  intros [e He]. vm_compute in He. discriminate.
Qed.

(** C8. Two parameters of the same nullability whose resolved annotations
    are numeric (number, float, double or 32-bit integer, in any
    combination) are serialized, at the same index, to the same
    expression: the numeric accessor on the boundary value. *)
Theorem serializeArg_numeric_flavors (arg1 arg2 : Param) (index : nat)
        (resolveAlias1 resolveAlias2 : AliasResolver)
        (t1 t2 real1 real2 : TypeAnnotation) (nullable : bool) :
  unwrapNullable (typeAnnotation arg1) = (t1, nullable) ->
  unwrapNullable (typeAnnotation arg2) = (t2, nullable) ->
  realTypeAnnotation t1 resolveAlias1 = Ok real1 ->
  realTypeAnnotation t2 resolveAlias2 = Ok real2 ->
  In (ta_type real1) numericTypes ->
  In (ta_type real2) numericTypes ->
  serializeArg arg1 index resolveAlias1 =
    Ok (wrap index nullable ".asNumber()")
  /\ serializeArg arg2 index resolveAlias2 =
       serializeArg arg1 index resolveAlias1.
Proof.
  intros Hu1 Hu2 Hr1 Hr2 Hn1 Hn2.
  rewrite (serializeArg_numeric arg1 index resolveAlias1 t1 real1 nullable)
    by assumption.
  rewrite (serializeArg_numeric arg2 index resolveAlias2 t2 real2 nullable)
    by assumption.
  split; reflexivity.
Qed.

(** C8, at a nullable float against a nullable alias of a 32-bit
    integer. *)
Lemma serializeArg_numeric_flavors_witness :
  serializeArg (mkNamedShape "x" (NullableTypeAnnotation FloatTypeAnnotation))
               1 (createAliasResolver []) =
    Ok (wrap 1 true ".asNumber()")
  /\ serializeArg
       (mkNamedShape "y" (NullableTypeAnnotation (TypeAliasTypeAnnotation "I")))
       1 (createAliasResolver [("I", Int32TypeAnnotation)]) =
     serializeArg
       (mkNamedShape "x" (NullableTypeAnnotation FloatTypeAnnotation))
       1 (createAliasResolver []).
Proof.
  apply (serializeArg_numeric_flavors
           (mkNamedShape "x" (NullableTypeAnnotation FloatTypeAnnotation))
           (mkNamedShape "y"
              (NullableTypeAnnotation (TypeAliasTypeAnnotation "I")))
           1 (createAliasResolver [])
           (createAliasResolver [("I", Int32TypeAnnotation)])
           FloatTypeAnnotation (TypeAliasTypeAnnotation "I")
           FloatTypeAnnotation Int32TypeAnnotation true);
    try reflexivity; simpl; tauto.
Defined.

(** ** Host functions *)

(** C3. For a Property Spec whose (possibly nullable) function annotation
    has parameters that serialize to [args], the trampoline is its head
    line followed, when the return annotation is the void variant, by the
    native call as a statement of its own and a return of
    [jsi::Value::undefined()], and otherwise by the single statement that
    returns the call. *)
Theorem hostFunction_void_and_value (hasteModuleName : string)
        (property : NativeModulePropertyShape) (resolveAlias : AliasResolver)
        (params : list (string * TypeAnnotation)) (ret : TypeAnnotation)
        (nullable : bool) (args : list string) :
  unwrapNullable (typeAnnotation property) =
    (FunctionTypeAnnotation params ret, nullable) ->
  mapi (fun p i => serializeArg p i resolveAlias) (params_of params)
    = Ok args ->
  let call :=
    "static_cast<" ++ hasteModuleName ++ "CxxSpecJSI *>(&turboModule)->"
      ++ name property ++ "(" ++ join ", " ("rt" :: args) ++ ");" in
  (ta_type ret = "VoidTypeAnnotation" ->
   serializePropertyIntoHostFunction hasteModuleName property resolveAlias =
     Ok (hostFunctionHead hasteModuleName (name property)
           ++ nl ++ "  " ++ call
           ++ nl ++ "  return jsi::Value::undefined();"
           ++ nl ++ "}"))
  /\
  (ta_type ret <> "VoidTypeAnnotation" ->
   serializePropertyIntoHostFunction hasteModuleName property resolveAlias =
     Ok (hostFunctionHead hasteModuleName (name property)
           ++ nl ++ "  return " ++ call
           ++ nl ++ "}")).
Proof.
  intros Hu Hargs call.
  unfold serializePropertyIntoHostFunction. rewrite Hu.
  cbn [ta_returnTypeAnnotation ta_params]. rewrite Hargs. cbn [bind].
  unfold HostFunctionTemplate. fold call.
  change (methodCall hasteModuleName (name property) args) with call.
  split; intros Hret.
  - apply String.eqb_eq in Hret. rewrite Hret.
    reflexivity.
  - apply String.eqb_neq in Hret. rewrite Hret. reflexivity.
Qed.

(** C3, at a void method of one string parameter. *)
Lemma hostFunction_void_and_value_witness :
  serializePropertyIntoHostFunction "Log"
    (mkNamedShape "warn"
       (FunctionTypeAnnotation [("text", StringTypeAnnotation)]
                               VoidTypeAnnotation))
    (createAliasResolver []) =
  Ok (hostFunctionHead "Log" "warn"
        ++ nl ++ "  "
        ++ "static_cast<LogCxxSpecJSI *>(&turboModule)->warn(rt, args[0].asString(rt));"
        ++ nl ++ "  return jsi::Value::undefined();"
        ++ nl ++ "}").
Proof.
  apply (hostFunction_void_and_value "Log"
           (mkNamedShape "warn"
              (FunctionTypeAnnotation [("text", StringTypeAnnotation)]
                                      VoidTypeAnnotation))
           (createAliasResolver [])
           [("text", StringTypeAnnotation)] VoidTypeAnnotation false
           ["args[0].asString(rt)"]);
    reflexivity.
Defined.

(** ** Arity *)

Lemma mapM_Forall2 {A B : Type} (f : A -> result B) :
  forall (xs : list A) (ys : list B),
    mapM f xs = Ok ys -> Forall2 (fun x y => f x = Ok y) xs ys.
Proof.
  induction xs as [|x xs IH]; simpl; intros ys H.
  - injection H as <-. constructor.
  - apply bind_Ok_inv in H as (y & Hy & H).
    apply bind_Ok_inv in H as (ys' & Hys & H).
    injection H as <-. constructor; [exact Hy|now apply IH].
Qed.

Lemma methodOfProperty_Ok (property : NativeModulePropertyShape)
      (m : Method) :
  methodOfProperty property = Ok m ->
  m = mkMethod (name property) (List.length (propertyParams property)).
Proof.
  unfold methodOfProperty, propertyParams.
  destruct (unwrapNullable (typeAnnotation property)) as [fn nullable].
  cbn [fst]. destruct (ta_params fn) as [params|]; intros H;
    [now injection H as <-|discriminate].
Qed.

Lemma mapM_methodOfProperty_Ok :
  forall (props : list NativeModulePropertyShape) (methods : list Method),
    mapM methodOfProperty props = Ok methods ->
    methods =
      map (fun p => mkMethod (name p) (List.length (propertyParams p))) props.
Proof.
  intros props methods H. apply mapM_Forall2 in H.
  induction H as [|p m props methods Hp _ IH]; simpl; [reflexivity|].
  apply methodOfProperty_Ok in Hp. now rewrite Hp, IH.
Qed.

(** An emitted trampoline takes one argument expression per parameter, the
    one at position [i] built on the boundary value of index [i]. *)
Lemma serializePropertyIntoHostFunction_Ok (hasteModuleName : string)
      (property : NativeModulePropertyShape) (resolveAlias : AliasResolver)
      (text : string) :
  serializePropertyIntoHostFunction hasteModuleName property resolveAlias
    = Ok text ->
  exists isVoid args,
    text = HostFunctionTemplate hasteModuleName (name property) isVoid args /\
    List.length args = List.length (propertyParams property) /\
    forall i, i < List.length (propertyParams property) ->
              exists suffix,
                In suffix conversionSuffixes /\
                (nth_error args i = Some (boundaryValue i ++ suffix) \/
                 nth_error args i =
                   Some (conditional i (boundaryValue i ++ suffix))).
Proof.
  unfold serializePropertyIntoHostFunction, propertyParams.
  destruct (unwrapNullable (typeAnnotation property)) as [fn nullable].
  cbn [fst].
  destruct (ta_returnTypeAnnotation fn) as [ret|]; [|discriminate].
  destruct (ta_params fn) as [params|]; [|discriminate].
  intros H. apply bind_Ok_inv in H as (args & Hargs & H).
  injection H as <-.
  exists (ta_type ret =? "VoidTypeAnnotation"), args.
  split; [reflexivity|].
  apply mapi_from_Ok in Hargs as [Hlen Hnth].
  unfold params_of in Hlen, Hnth. rewrite length_map in Hlen.
  split; [exact Hlen|].
  intros i Hi.
  destruct (nth_error (map (fun p => mkNamedShape (fst p) (snd p)) params) i)
    as [x|] eqn:Hx.
  - destruct (Hnth i x Hx) as (y & Hy & Hf). cbn [Nat.add] in Hf.
    apply serializeArg_Ok_inv in Hf as (suffix & Hin & ->).
    exists suffix. split; [exact Hin|]. rewrite Hy.
    destruct (snd (unwrapNullable (typeAnnotation x)));
      [right; now rewrite wrap_nullable, wrap_bare
      |left; now rewrite wrap_bare].
  - apply nth_error_None in Hx. rewrite length_map in Hx. lia.
Qed.

(** The registration line of a method of arity [k] carries the digits of
    [k]. *)
Lemma methodMapEntry_arity (hasteModuleName methodName : string) (k : nat) :
  methodMapEntry hasteModuleName (mkMethod methodName k) =
  "  methodMap_[" ++ dq ++ methodName ++ dq ++ "] = MethodMetadata {"
    ++ string_of_nat k ++ ", "
    ++ hostFunctionName hasteModuleName methodName ++ "};".
Proof. reflexivity. Qed.

(** ** The emitted text, letter by letter *)

(** Closes an equation between two texts that differ by the grouping of
    their pieces. *)
Ltac text_eq := repeat rewrite append_assoc; reflexivity.

Lemma HostFunctionTemplate_text (h m : string) (isVoid : bool)
      (args : list string) :
  HostFunctionTemplate h m isVoid args =
  "static jsi::Value __hostFunction_" ++ h ++ "CxxSpecJSI_" ++ m
    ++ "(jsi::Runtime &rt, TurboModule &turboModule, const jsi::Value* args, size_t count) {"
    ++ (if isVoid
        then nl ++ "  static_cast<" ++ h ++ "CxxSpecJSI *>(&turboModule)->"
                ++ m ++ "(" ++ String.concat ", " ("rt" :: args) ++ ");"
        else "")
    ++ nl ++ "  return "
    ++ (if isVoid
        then "jsi::Value::undefined();"
        else "static_cast<" ++ h ++ "CxxSpecJSI *>(&turboModule)->"
               ++ m ++ "(" ++ String.concat ", " ("rt" :: args) ++ ");")
    ++ nl ++ "}".
Proof.
  unfold HostFunctionTemplate, hostFunctionHead, hostFunctionName, methodCall,
    join.
  destruct isVoid; text_eq.
Qed.

Lemma methodMapEntry_text (h m : string) (k : nat) :
  methodMapEntry h (mkMethod m k) =
  "  methodMap_[" ++ dq ++ m ++ dq ++ "] = MethodMetadata {"
    ++ NilZero.string_of_uint (Nat.to_uint k)
    ++ ", __hostFunction_" ++ h ++ "CxxSpecJSI_" ++ m ++ "};".
Proof.
  unfold methodMapEntry, hostFunctionName, string_of_nat.
  cbn [methodName paramCount]. text_eq.
Qed.

Lemma ModuleTemplate_text (h : string) (hostFunctions : list string)
      (moduleName : option string) (methods : list Method) :
  ModuleTemplate h hostFunctions moduleName methods =
  String.concat nl hostFunctions ++ nl ++ nl
    ++ h ++ "CxxSpecJSI::" ++ h
    ++ "CxxSpecJSI(std::shared_ptr<CallInvoker> jsInvoker)" ++ nl
    ++ "  : TurboModule(" ++ dq
    ++ match moduleName with Some n => n | None => "undefined" end
    ++ dq ++ ", jsInvoker) {" ++ nl
    ++ String.concat nl (map (methodMapEntry h) methods) ++ nl
    ++ "}".
Proof.
  unfold ModuleTemplate, join, js_string. text_eq.
Qed.

Lemma FileTemplate_text (libraryName modules : string) :
  FileTemplate libraryName modules =
  "/**" ++ nl
    ++ " * This code was generated by [react-native-codegen](https://www.npmjs.com/package/react-native-codegen)." ++ nl
    ++ " *" ++ nl
    ++ " * Do not edit this file as changes may cause incorrect behavior and will be lost" ++ nl
    ++ " * once the code is regenerated." ++ nl
    ++ " *" ++ nl
    ++ " * @generated by codegen project: GenerateModuleH.js" ++ nl
    ++ " */" ++ nl
    ++ nl
    ++ "#include " ++ dq ++ libraryName ++ "JSI.h" ++ dq ++ nl
    ++ nl
    ++ "namespace facebook {" ++ nl
    ++ "namespace react {" ++ nl
    ++ nl
    ++ modules ++ nl
    ++ nl
    ++ nl
    ++ "} // namespace react" ++ nl
    ++ "} // namespace facebook" ++ nl.
Proof. unfold FileTemplate. text_eq. Qed.

Lemma wrap_text (i : nat) (nullable : bool) (suffix : string) :
  wrap i nullable suffix =
  if nullable
  then "args[" ++ NilZero.string_of_uint (Nat.to_uint i) ++ "].isNull() || args["
         ++ NilZero.string_of_uint (Nat.to_uint i)
         ++ "].isUndefined() ? std::nullopt : std::make_optional(args["
         ++ NilZero.string_of_uint (Nat.to_uint i) ++ "]" ++ suffix ++ ")"
  else "args[" ++ NilZero.string_of_uint (Nat.to_uint i) ++ "]" ++ suffix.
Proof. unfold wrap, string_of_nat. destruct nullable; text_eq. Qed.

(** What an emitted trampoline was made from: the function annotation of
    the property, and the expressions of its parameters. *)
Lemma serializePropertyIntoHostFunction_inv (hasteModuleName : string)
      (property : NativeModulePropertyShape) (resolveAlias : AliasResolver)
      (text : string) :
  serializePropertyIntoHostFunction hasteModuleName property resolveAlias
    = Ok text ->
  exists ret nullable args,
    unwrapNullable (typeAnnotation property) =
      (FunctionTypeAnnotation (propertyParams property) ret, nullable) /\
    text = HostFunctionTemplate hasteModuleName (name property)
             (ta_type ret =? "VoidTypeAnnotation") args /\
    mapi (fun p i => serializeArg p i resolveAlias)
         (params_of (propertyParams property)) = Ok args.
Proof.
  unfold serializePropertyIntoHostFunction, propertyParams.
  destruct (unwrapNullable (typeAnnotation property)) as [fn nullable].
  cbn [fst].
  destruct fn; cbn [ta_returnTypeAnnotation ta_params]; try discriminate.
  intros H. apply bind_Ok_inv in H as (args & Hargs & H).
  injection H as <-. now eexists _, nullable, args.
Qed.

(** The module text is [ModuleTemplate] on the trampolines of the
    properties, in their order, and on their names and parameter counts. *)
Lemma emitModule_inv (hasteModuleName : string)
      (nativeModule : NativeModuleSchema) (text : string) :
  emitModule hasteModuleName nativeModule = Ok text ->
  exists hostFunctions,
    text =
      ModuleTemplate hasteModuleName hostFunctions
        (nth_error (moduleNames nativeModule) 0)
        (map (fun p => mkMethod (name p) (List.length (propertyParams p)))
             (properties nativeModule))
    /\ Forall2
         (fun p hostFunction =>
            serializePropertyIntoHostFunction hasteModuleName p
              (createAliasResolver (aliases nativeModule)) = Ok hostFunction)
         (properties nativeModule) hostFunctions.
Proof.
  unfold emitModule. intros H.
  apply bind_Ok_inv in H as (hostFunctions & Hhf & H).
  apply bind_Ok_inv in H as (methods & Hm & H).
  injection H as <-. exists hostFunctions.
  apply mapM_methodOfProperty_Ok in Hm. subst methods.
  split; [reflexivity|]. now apply mapM_Forall2.
Qed.

(** The registration lines of the properties, as text. *)
Lemma registration_lines_text (h : string)
      (props : list NativeModulePropertyShape) :
  map (methodMapEntry h)
      (map (fun p => mkMethod (name p) (List.length (propertyParams p))) props)
  = map (fun p =>
           "  methodMap_[" ++ dq ++ name p ++ dq ++ "] = MethodMetadata {"
             ++ NilZero.string_of_uint
                  (Nat.to_uint (List.length (propertyParams p)))
             ++ ", __hostFunction_" ++ h ++ "CxxSpecJSI_" ++ name p ++ "};")
        props.
Proof.
  rewrite map_map. apply map_ext. intros p. apply methodMapEntry_text.
Qed.

(** C4. The text emitted for a module ends in the registration
    constructor, whose body holds, for each Property Spec in declaration
    order, the line
    [methodMap_["<name>"] = MethodMetadata {<k>, __hostFunction_<module>CxxSpecJSI_<name>};]
    with [k] the length of the property's parameter sequence, in decimal.
    The trampoline of the property calls the method on [rt] and [k]
    argument expressions, the one at position [i] being [args[<i>]<suffix>]
    or the conditional on [args[<i>]], for [i] from [0] to [k-1]. *)
Theorem arity_fidelity (hasteModuleName : string)
        (nativeModule : NativeModuleSchema) (text : string) :
  let nl := String "010"%char EmptyString in
  let dq := String "034"%char EmptyString in
  let digits := fun n : nat => NilZero.string_of_uint (Nat.to_uint n) in
  emitModule hasteModuleName nativeModule = Ok text ->
  exists hostFunctions,
    text =
      String.concat nl hostFunctions ++ nl ++ nl
        ++ hasteModuleName ++ "CxxSpecJSI::" ++ hasteModuleName
        ++ "CxxSpecJSI(std::shared_ptr<CallInvoker> jsInvoker)" ++ nl
        ++ "  : TurboModule(" ++ dq
        ++ match nth_error (moduleNames nativeModule) 0 with
           | Some n => n
           | None => "undefined"
           end
        ++ dq ++ ", jsInvoker) {" ++ nl
        ++ String.concat nl
             (map (fun p =>
                     "  methodMap_[" ++ dq ++ name p ++ dq
                       ++ "] = MethodMetadata {"
                       ++ digits (List.length (propertyParams p))
                       ++ ", __hostFunction_" ++ hasteModuleName
                       ++ "CxxSpecJSI_" ++ name p ++ "};")
                  (properties nativeModule))
        ++ nl ++ "}"
    /\ Forall2
         (fun p hostFunction =>
            exists ret nullable args,
              unwrapNullable (typeAnnotation p) =
                (FunctionTypeAnnotation (propertyParams p) ret, nullable) /\
              (let call :=
                 "static_cast<" ++ hasteModuleName
                   ++ "CxxSpecJSI *>(&turboModule)->" ++ name p ++ "("
                   ++ String.concat ", " ("rt" :: args) ++ ");" in
               let isVoid := ta_type ret =? "VoidTypeAnnotation" in
               hostFunction =
                 "static jsi::Value __hostFunction_" ++ hasteModuleName
                   ++ "CxxSpecJSI_" ++ name p
                   ++ "(jsi::Runtime &rt, TurboModule &turboModule, const jsi::Value* args, size_t count) {"
                   ++ (if isVoid then nl ++ "  " ++ call else "")
                   ++ nl ++ "  return "
                   ++ (if isVoid then "jsi::Value::undefined();" else call)
                   ++ nl ++ "}") /\
              List.length args = List.length (propertyParams p) /\
              forall i, i < List.length (propertyParams p) ->
                        exists suffix,
                          In suffix
                             [".getNumber()"; ".asString(rt)"; ".asBool()";
                              ".asNumber()"; ".asObject(rt).asArray(rt)";
                              ".asObject(rt).asFunction(rt)"; ".asObject(rt)"] /\
                          (nth_error args i =
                             Some ("args[" ++ digits i ++ "]" ++ suffix) \/
                           nth_error args i =
                             Some ("args[" ++ digits i ++ "].isNull() || args["
                                     ++ digits i
                                     ++ "].isUndefined() ? std::nullopt : std::make_optional(args["
                                     ++ digits i ++ "]" ++ suffix ++ ")")))
         (properties nativeModule) hostFunctions.
Proof.
  intros nl' dq' digits H. subst nl' dq' digits.
  change (String "010"%char EmptyString) with nl.
  change (String "034"%char EmptyString) with dq.
  apply emitModule_inv in H as (hostFunctions & -> & Hhf).
  exists hostFunctions. split.
  - rewrite ModuleTemplate_text, registration_lines_text. reflexivity.
  - eapply Forall2_impl; [|exact Hhf].
    intros p hf Hp. cbv beta in Hp.
    apply serializePropertyIntoHostFunction_inv in Hp
      as (ret & nullable & args & Hu & -> & Hargs).
    exists ret, nullable, args. split; [exact Hu|].
    split; [cbv zeta; rewrite HostFunctionTemplate_text;
            destruct (ta_type ret =? "VoidTypeAnnotation"); text_eq|].
    apply mapi_from_Ok in Hargs as [Hlen Hnth].
    unfold params_of in Hlen, Hnth. rewrite length_map in Hlen.
    split; [exact Hlen|].
    intros i Hi.
    destruct (nth_error
                (map (fun q => mkNamedShape (fst q) (snd q)) (propertyParams p))
                i) as [x|] eqn:Hx.
    + destruct (Hnth i x Hx) as (y & Hy & Hf). cbn [Nat.add] in Hf.
      apply serializeArg_Ok_inv in Hf as (suffix & Hin & ->).
      exists suffix. split; [exact Hin|]. rewrite Hy, wrap_text.
      destruct (snd (unwrapNullable (typeAnnotation x)));
        [right|left]; reflexivity.
    + apply nth_error_None in Hx. rewrite length_map in Hx. lia.
Qed.

(** C4, at the module [M] with [add(a, b)]: the registration line of [add]
    carries arity 2. *)
Lemma arity_fidelity_witness :
  exists hostFunctions,
    text_M =
      String.concat nl hostFunctions ++ nl ++ nl
        ++ "MCxxSpecJSI::MCxxSpecJSI(std::shared_ptr<CallInvoker> jsInvoker)"
        ++ nl
        ++ "  : TurboModule(" ++ dq ++ "M" ++ dq ++ ", jsInvoker) {" ++ nl
        ++ "  methodMap_[" ++ dq ++ "add" ++ dq
        ++ "] = MethodMetadata {2, __hostFunction_MCxxSpecJSI_add};"
        ++ nl ++ "}".
Proof.
  destruct (arity_fidelity "M" module_M text_M eq_refl)
    as (hostFunctions & Htext & _).
  exists hostFunctions. exact Htext.
Defined.

(** ** Naming *)

(** C6. The trampoline identifier is a function of the module identifier
    and the method name: it is what [HostFunctionTemplate] declares and
    what the registration line refers to; and for one method name, two
    distinct module identifiers give two distinct identifiers. *)
Theorem hostFunctionName_distinct_modules
        (hasteModuleName1 hasteModuleName2 method : string) :
  hasteModuleName1 <> hasteModuleName2 ->
  hostFunctionName hasteModuleName1 method
    <> hostFunctionName hasteModuleName2 method
  /\ (forall h isVoid args,
        exists rest,
          HostFunctionTemplate h method isVoid args =
          "static jsi::Value " ++ hostFunctionName h method ++ rest)
  /\ (forall h k,
        exists entry,
          methodMapEntry h (mkMethod method k) =
          entry ++ hostFunctionName h method ++ "};").
Proof.
  intros Hneq. split; [|split].
  - intros Heq. apply Hneq. unfold hostFunctionName in Heq.
    apply append_cancel_l in Heq.
    now apply append_cancel_r in Heq.
  - intros h isVoid args. unfold HostFunctionTemplate, hostFunctionHead.
    eexists. rewrite !append_assoc. reflexivity.
  - intros h k. unfold methodMapEntry. cbn [methodName paramCount].
    exists ("  methodMap_[" ++ dq ++ method ++ dq
              ++ "] = MethodMetadata {" ++ string_of_nat k ++ ", ").
    rewrite !append_assoc. reflexivity.
Qed.

(** C6, at the method [foo] of the modules [A] and [B]. *)
Lemma hostFunctionName_distinct_modules_witness :
  "A" <> "B"
  /\ hostFunctionName "A" "foo" <> hostFunctionName "B" "foo".
Proof.
  split; [discriminate|].
  apply (hostFunctionName_distinct_modules "A" "B" "foo"). discriminate.
Defined.

(** ** The driver *)

Lemma lookup_NoDup {A : Type} (ms : list (string * A)) (k : string) (v : A) :
  NoDup (map fst ms) -> In (k, v) ms -> lookup k ms = Some v.
Proof.
  induction ms as [|[k' v'] ms IH]; simpl; intros Hnd Hin; [contradiction|].
  inversion Hnd as [|? ? Hnotin Hnd']; subst.
  destruct Hin as [Heq|Hin].
  - injection Heq as -> ->. now rewrite String.eqb_refl.
  - destruct (String.eqb_spec k' k) as [->|_].
    + exfalso. apply Hnotin. apply in_map_iff. now exists (k, v).
    + now apply IH.
Qed.

Lemma lookup_map_values {A B : Type} (f : A -> B) (ms : list (string * A))
      (k : string) :
  lookup k (map (fun e => (fst e, f (snd e))) ms) = option_map f (lookup k ms).
Proof.
  induction ms as [|[k' v'] ms IH]; simpl; [reflexivity|].
  now destruct (k' =? k).
Qed.

(** With distinct keys, the module texts are those of the entries, each
    made from its own key and spec. *)
Lemma mapM_generateModule (ms : list (string * NativeModuleSchema)) :
  NoDup (map fst ms) ->
  mapM (generateModule ms) (map fst ms) =
  mapM (fun entry => emitModule (fst entry) (snd entry)) ms.
Proof.
  intros Hnd. rewrite mapM_map. apply mapM_ext.
  intros [k v] Hin. unfold generateModule. cbn [fst snd].
  now rewrite (lookup_NoDup ms k v Hnd Hin).
Qed.

(** The argument expressions of a trampoline are those of the parameters,
    position by position. *)
Lemma serializePropertyIntoHostFunction_args (hasteModuleName : string)
      (property : NativeModulePropertyShape) (resolveAlias : AliasResolver)
      (text : string) :
  serializePropertyIntoHostFunction hasteModuleName property resolveAlias
    = Ok text ->
  exists isVoid args,
    text = HostFunctionTemplate hasteModuleName (name property) isVoid args /\
    forall i param,
      nth_error (params_of (propertyParams property)) i = Some param ->
      exists e, nth_error args i = Some e /\
                serializeArg param i resolveAlias = Ok e.
Proof.
  unfold serializePropertyIntoHostFunction, propertyParams.
  destruct (unwrapNullable (typeAnnotation property)) as [fn nullable].
  cbn [fst].
  destruct (ta_returnTypeAnnotation fn) as [ret|]; [|discriminate].
  destruct (ta_params fn) as [params|]; [|discriminate].
  intros H. apply bind_Ok_inv in H as (args & Hargs & H).
  injection H as <-.
  exists (ta_type ret =? "VoidTypeAnnotation"), args.
  split; [reflexivity|].
  apply mapi_from_Ok in Hargs as [_ Hnth]. exact Hnth.
Qed.

(** C5. Two runs of [generate] on the same library name and schema return
    the same result, whatever else they are given. With the keys of the
    schema distinct, as the keys of an object are, the text of the one file
    [<libraryName>JSI-generated.cpp] is the fixed header, the texts of the
    modules in the order of the schema, one line feed between two, and the
    fixed footer. The text of a module is the trampolines of its properties
    in declaration order, then the constructor with their registration
    lines in the same order; and the call of a trampoline passes, after
    [rt], the expressions of the parameters in the order of the parameter
    sequence, the one at position [i] being that of parameter [i]. *)
Theorem generate_deterministic (libraryName : string) (schema : SchemaType)
        (packageName packageName' : option string)
        (assumeNonnull assumeNonnull' : option bool) :
  let nl := String "010"%char EmptyString in
  let dq := String "034"%char EmptyString in
  let digits := fun n : nat => NilZero.string_of_uint (Nat.to_uint n) in
  (forall out1 out2,
      generate libraryName schema packageName assumeNonnull = out1 ->
      generate libraryName schema packageName' assumeNonnull' = out2 ->
      out1 = out2)
  /\ (NoDup (map fst (modules schema)) ->
      forall out,
        generate libraryName schema packageName assumeNonnull = Ok out ->
        exists moduleTexts,
          out =
            [(libraryName ++ "JSI-generated.cpp",
              "/**" ++ nl
                ++ " * This code was generated by [react-native-codegen](https://www.npmjs.com/package/react-native-codegen)." ++ nl
                ++ " *" ++ nl
                ++ " * Do not edit this file as changes may cause incorrect behavior and will be lost" ++ nl
                ++ " * once the code is regenerated." ++ nl
                ++ " *" ++ nl
                ++ " * @generated by codegen project: GenerateModuleH.js" ++ nl
                ++ " */" ++ nl
                ++ nl
                ++ "#include " ++ dq ++ libraryName ++ "JSI.h" ++ dq ++ nl
                ++ nl
                ++ "namespace facebook {" ++ nl
                ++ "namespace react {" ++ nl
                ++ nl
                ++ String.concat nl moduleTexts ++ nl
                ++ nl
                ++ nl
                ++ "} // namespace react" ++ nl
                ++ "} // namespace facebook" ++ nl)]
          /\ Forall2
               (fun entry moduleText =>
                  exists hostFunctions,
                    moduleText =
                      String.concat nl hostFunctions ++ nl ++ nl
                        ++ fst entry ++ "CxxSpecJSI::" ++ fst entry
                        ++ "CxxSpecJSI(std::shared_ptr<CallInvoker> jsInvoker)"
                        ++ nl
                        ++ "  : TurboModule(" ++ dq
                        ++ match nth_error (moduleNames (snd entry)) 0 with
                           | Some n => n
                           | None => "undefined"
                           end
                        ++ dq ++ ", jsInvoker) {" ++ nl
                        ++ String.concat nl
                             (map (fun p =>
                                     "  methodMap_[" ++ dq ++ name p ++ dq
                                       ++ "] = MethodMetadata {"
                                       ++ digits
                                            (List.length (propertyParams p))
                                       ++ ", __hostFunction_" ++ fst entry
                                       ++ "CxxSpecJSI_" ++ name p ++ "};")
                                  (properties (snd entry)))
                        ++ nl ++ "}"
                    /\ Forall2
                         (fun p hostFunction =>
                            exists isVoid args,
                              (let call :=
                                 "static_cast<" ++ fst entry
                                   ++ "CxxSpecJSI *>(&turboModule)->"
                                   ++ name p ++ "("
                                   ++ String.concat ", " ("rt" :: args)
                                   ++ ");" in
                               hostFunction =
                                 "static jsi::Value __hostFunction_"
                                   ++ fst entry ++ "CxxSpecJSI_" ++ name p
                                   ++ "(jsi::Runtime &rt, TurboModule &turboModule, const jsi::Value* args, size_t count) {"
                                   ++ (if isVoid : bool
                                       then nl ++ "  " ++ call else "")
                                   ++ nl ++ "  return "
                                   ++ (if isVoid
                                       then "jsi::Value::undefined();"
                                       else call)
                                   ++ nl ++ "}") /\
                              List.length args
                                = List.length (propertyParams p) /\
                              forall i param,
                                nth_error (params_of (propertyParams p)) i
                                  = Some param ->
                                exists e,
                                  nth_error args i = Some e /\
                                  serializeArg param i
                                    (createAliasResolver
                                       (aliases (snd entry))) = Ok e)
                         (properties (snd entry)) hostFunctions)
               (modules schema) moduleTexts).
Proof.
  intros nl' dq' digits. subst nl' dq' digits.
  change (String "010"%char EmptyString) with nl.
  change (String "034"%char EmptyString) with dq.
  split.
  - intros out1 out2 <- <-. reflexivity.
  - intros Hnd out H. unfold generate, getModules in H.
    rewrite (mapM_generateModule (modules schema) Hnd) in H.
    apply bind_Ok_inv in H as (moduleTexts & Htexts & H).
    injection H as <-. exists moduleTexts. split.
    + unfold join. rewrite FileTemplate_text. reflexivity.
    + apply mapM_Forall2 in Htexts.
      eapply Forall2_impl; [|exact Htexts].
      intros [h m] moduleText Hm. cbn [fst snd] in *.
      apply emitModule_inv in Hm as (hostFunctions & -> & Hhf).
      exists hostFunctions. split.
      * rewrite ModuleTemplate_text, registration_lines_text. reflexivity.
      * eapply Forall2_impl; [|exact Hhf].
        intros p hf Hp. cbv beta in Hp.
        apply serializePropertyIntoHostFunction_inv in Hp
          as (ret & nullable & args & Hu & -> & Hargs).
        exists (ta_type ret =? "VoidTypeAnnotation"), args.
        split; [cbv zeta; rewrite HostFunctionTemplate_text;
                destruct (ta_type ret =? "VoidTypeAnnotation"); text_eq|].
        apply mapi_from_Ok in Hargs as [Hlen Hnth].
        unfold params_of in Hlen. rewrite length_map in Hlen.
        split; [exact Hlen|exact Hnth].
Qed.

(** C5, at the schema of the module [M]: the one file, its module part
    the text of [M]. *)
Lemma generate_deterministic_witness :
  exists moduleTexts,
    generate "Lib" schema_M None None =
      Ok [("LibJSI-generated.cpp",
           "/**" ++ nl
             ++ " * This code was generated by [react-native-codegen](https://www.npmjs.com/package/react-native-codegen)." ++ nl
             ++ " *" ++ nl
             ++ " * Do not edit this file as changes may cause incorrect behavior and will be lost" ++ nl
             ++ " * once the code is regenerated." ++ nl
             ++ " *" ++ nl
             ++ " * @generated by codegen project: GenerateModuleH.js" ++ nl
             ++ " */" ++ nl
             ++ nl
             ++ "#include " ++ dq ++ "LibJSI.h" ++ dq ++ nl
             ++ nl
             ++ "namespace facebook {" ++ nl
             ++ "namespace react {" ++ nl
             ++ nl
             ++ String.concat nl moduleTexts ++ nl
             ++ nl
             ++ nl
             ++ "} // namespace react" ++ nl
             ++ "} // namespace facebook" ++ nl)]
    /\ List.length moduleTexts = 1.
Proof.
  assert (Hnd : NoDup (map fst (modules schema_M)))
    by (repeat constructor; simpl; tauto).
  destruct (proj2 (generate_deterministic "Lib" schema_M None None None None)
              Hnd _ eq_refl) as (moduleTexts & Hout & Hall).
  exists moduleTexts. split.
  - exact (f_equal Ok Hout).
  - apply Forall2_length in Hall. now rewrite <- Hall.
Defined.

(** C10. [packageName] and [assumeNonnull] are never read: two runs that
    differ in them alone return the same file map. *)
Theorem generate_ignores_packageName_assumeNonnull
        (libraryName : string) (schema : SchemaType)
        (packageName packageName' : option string)
        (assumeNonnull assumeNonnull' : option bool) :
  generate libraryName schema packageName assumeNonnull =
  generate libraryName schema packageName' assumeNonnull'.
Proof. reflexivity. Qed.

(** ** External names *)

Lemma emitModule_firstNameOnly (hasteModuleName : string)
      (nativeModule : NativeModuleSchema) :
  emitModule hasteModuleName (firstNameOnly nativeModule) =
  emitModule hasteModuleName nativeModule.
Proof.
  unfold emitModule, firstNameOnly. cbn [aliases properties moduleNames].
  now destruct (moduleNames nativeModule).
Qed.

(** The whole output is that of the schema with the later names dropped. *)
Lemma generate_firstNameOnly (libraryName : string) (schema : SchemaType)
      (packageName : option string) (assumeNonnull : option bool) :
  generate libraryName
    (mkSchemaType
       (map (fun e => (fst e, firstNameOnly (snd e))) (modules schema)))
    packageName assumeNonnull =
  generate libraryName schema packageName assumeNonnull.
Proof.
  unfold generate, getModules. cbn [modules].
  rewrite map_map. cbn [fst].
  erewrite mapM_ext; [reflexivity|].
  intros k _. unfold generateModule. rewrite lookup_map_values.
  destruct (lookup k (modules schema)) as [m|]; cbn [option_map];
    [apply emitModule_firstNameOnly|reflexivity].
Qed.



(** ** UserFlow *)

(** C9, as amended. [start], [addAnnotation], [addPoint], [endSuccess],
    [endFailure] and [endCancel] are pass-throughs: with the entry point
    installed, the one native call on the marker id and instance key of the
    flow id and the remaining arguments; without it, nothing. [newFlowId]
    asks the native side, for the marker id alone, only when the instance
    key is left out or is [-1]; it then returns the native key, or key [0]
    and an untouched world when the entry point is missing. With any other
    instance key it returns the pair it was given and calls nothing. No
    operation has a state of its own: the result and the world after are
    functions of the arguments, [global] and the world before. *)
Theorem UserFlow_pass_through (World PointData : Type)
        (global : UserFlow.Global World PointData) :
  (forall flowId options,
      passThrough (UserFlow.nativeUserFlowStart _ _ global)
        (fun native =>
           native (UserFlow.markerId flowId) (UserFlow.instanceKey flowId)
                  (UserFlow.triggerSource options)
                  (UserFlow.cancelOnBackground options))
        (UserFlow.start global flowId options))
  /\ (forall flowId annotationName annotationValue,
        passThrough (UserFlow.nativeUserFlowAddAnnotation _ _ global)
          (fun native =>
             native (UserFlow.markerId flowId) (UserFlow.instanceKey flowId)
                    annotationName annotationValue)
          (UserFlow.addAnnotation global flowId annotationName
                                  annotationValue))
  /\ (forall flowId pointName data,
        passThrough (UserFlow.nativeUserFlowAddPoint _ _ global)
          (fun native =>
             native (UserFlow.markerId flowId) (UserFlow.instanceKey flowId)
                    pointName data)
          (UserFlow.addPoint global flowId pointName data))
  /\ (forall flowId,
        passThrough (UserFlow.nativeUserFlowEndSuccess _ _ global)
          (fun native =>
             native (UserFlow.markerId flowId) (UserFlow.instanceKey flowId))
          (UserFlow.endSuccess global flowId))
  /\ (forall flowId errorName debugInfo,
        passThrough (UserFlow.nativeUserFlowEndFail _ _ global)
          (fun native =>
             native (UserFlow.markerId flowId) (UserFlow.instanceKey flowId)
                    errorName debugInfo)
          (UserFlow.endFailure global flowId errorName debugInfo))
  /\ (forall flowId cancelReason,
        passThrough (UserFlow.nativeUserFlowEndCancel _ _ global)
          (fun native =>
             native (UserFlow.markerId flowId) (UserFlow.instanceKey flowId)
                    cancelReason)
          (UserFlow.endCancel global flowId cancelReason))
  /\ (forall markerId instanceKey w,
        instanceKey = None \/ instanceKey = Some UserFlow.AUTO_INSTANCE_KEY ->
        UserFlow.newFlowId global markerId instanceKey w =
        match UserFlow.nativeUserFlowNextInstanceKey _ _ global with
        | Some native =>
            (UserFlow.mkFlowId markerId (fst (native markerId w)),
             snd (native markerId w))
        | None => (UserFlow.mkFlowId markerId 0%Z, w)
        end)
  /\ (forall markerId instanceKey w,
        instanceKey <> UserFlow.AUTO_INSTANCE_KEY ->
        UserFlow.newFlowId global markerId (Some instanceKey) w =
        (UserFlow.mkFlowId markerId instanceKey, w)).
Proof.
  repeat split.
  - intros flowId options. unfold passThrough, UserFlow.start.
    now destruct (UserFlow.nativeUserFlowStart _ _ global).
  - intros flowId n v. unfold passThrough, UserFlow.addAnnotation.
    now destruct (UserFlow.nativeUserFlowAddAnnotation _ _ global).
  - intros flowId n d. unfold passThrough, UserFlow.addPoint.
    now destruct (UserFlow.nativeUserFlowAddPoint _ _ global).
  - intros flowId. unfold passThrough, UserFlow.endSuccess.
    now destruct (UserFlow.nativeUserFlowEndSuccess _ _ global).
  - intros flowId e d. unfold passThrough, UserFlow.endFailure.
    now destruct (UserFlow.nativeUserFlowEndFail _ _ global).
  - intros flowId r. unfold passThrough, UserFlow.endCancel.
    now destruct (UserFlow.nativeUserFlowEndCancel _ _ global).
  - intros m k w [->| ->]; unfold UserFlow.newFlowId;
      rewrite Z.eqb_refl;
      destruct (UserFlow.nativeUserFlowNextInstanceKey _ _ global)
        as [native|]; try reflexivity;
      now destruct (native m w).
  - intros m k w Hk. unfold UserFlow.newFlowId.
    apply Z.eqb_neq in Hk. now rewrite Hk.
Qed.

(** C9, on the logging native side: an explicit instance key [5] calls
    nothing, a missing one takes the native key. *)
Lemma UserFlow_pass_through_witness :
  UserFlow.newFlowId recordingGlobal 1%Z (Some 5%Z) [] =
    (UserFlow.mkFlowId 1%Z 5%Z, [])
  /\ UserFlow.newFlowId recordingGlobal 1%Z None [] =
       (UserFlow.mkFlowId 1%Z 100%Z, [NextInstanceKey 1%Z]).
Proof.
  destruct (UserFlow_pass_through _ _ recordingGlobal)
    as (_ & _ & _ & _ & _ & _ & Hauto & Hexplicit).
  split.
  - apply Hexplicit. discriminate.
  - rewrite Hauto by now left. reflexivity.
Defined.

(** C9, as first stated, fails on flow-id creation: with every entry point
    installed, [newFlowId] on an explicit instance key forwards nothing to
    the native side, whose log stays empty. *)
Lemma UserFlow_newFlowId_explicit_key_calls_nothing :
  UserFlow.nativeUserFlowNextInstanceKey _ _ recordingGlobal <> None
  /\ UserFlow.newFlowId recordingGlobal 1%Z (Some 5%Z) [] =
       (UserFlow.mkFlowId 1%Z 5%Z, [])
  /\ UserFlow.newFlowId recordingGlobal 1%Z (Some 5%Z) [] <>
       (UserFlow.mkFlowId 1%Z 100%Z, [NextInstanceKey 1%Z]).
Proof.
  split; [discriminate|]. split; [reflexivity|discriminate].
Qed.

(** * Further properties of the generator *)

(** ** Rule dispatch *)

(** The outcome of [serializeArg] on a resolved annotation without a
    rule. *)
Lemma serializeArg_no_rule (arg : Param) (index : nat)
      (resolveAlias : AliasResolver) (t real : TypeAnnotation)
      (nullable : bool) :
  unwrapNullable (typeAnnotation arg) = (t, nullable) ->
  realTypeAnnotation t resolveAlias = Ok real ->
  has_rule real = false ->
  serializeArg arg index resolveAlias =
    Throw (unknownPropType (name arg) (offending real)).
Proof.
  intros Hu Hr Hrule.
  unfold serializeArg. rewrite Hu, Hr. cbn [bind].
  unfold has_rule in Hrule. unfold offending.
  destruct (ta_type real =? "ReservedTypeAnnotation") eqn:Hres.
  - destruct (ta_name real) as [n|]; [rewrite Hrule|]; reflexivity.
  - unfold matchedTypes in Hrule. cbn [existsb] in Hrule.
    repeat (let Hhd := fresh "Hhd" in
            apply orb_false_iff in Hrule as [Hhd Hrule]; rewrite Hhd).
    reflexivity.
Qed.

Lemma wrap_nonempty (i : nat) (nullable : bool) (suffix : string) :
  wrap i nullable suffix <> "".
Proof. destruct nullable; unfold wrap; simpl; discriminate. Qed.

(** X1. Once the annotation is unwrapped and resolved, [serializeArg]
    returns an expression exactly when the resolved annotation has a rule,
    and an expression it returns is never the empty text. *)
Theorem serializeArg_Ok_iff_has_rule (arg : Param) (index : nat)
        (resolveAlias : AliasResolver) (t real : TypeAnnotation)
        (nullable : bool) :
  unwrapNullable (typeAnnotation arg) = (t, nullable) ->
  realTypeAnnotation t resolveAlias = Ok real ->
  ((exists e, serializeArg arg index resolveAlias = Ok e)
   <-> has_rule real = true)
  /\ forall e, serializeArg arg index resolveAlias = Ok e -> e <> "".
Proof.
  intros Hu Hr. split; [split|].
  - intros [e He]. destruct (has_rule real) eqn:Hrule; [reflexivity|].
    rewrite (serializeArg_no_rule arg index resolveAlias t real nullable
               Hu Hr Hrule) in He.
    discriminate.
  - intros Hrule.
    destruct (serializeArg_has_rule arg index resolveAlias t real nullable
                Hu Hr Hrule) as (suffix & _ & Hs).
    now exists (wrap index nullable suffix).
  - intros e He. apply serializeArg_Ok_inv in He as (suffix & _ & ->).
    apply wrap_nonempty.
Qed.

Lemma serializeArg_Ok_iff_has_rule_witness :
  (exists e,
      serializeArg (mkNamedShape "cb"
                      (FunctionTypeAnnotation [] VoidTypeAnnotation))
                   0 (createAliasResolver []) = Ok e)
  <-> has_rule (FunctionTypeAnnotation [] VoidTypeAnnotation) = true.
Proof.
  apply (serializeArg_Ok_iff_has_rule
           (mkNamedShape "cb" (FunctionTypeAnnotation [] VoidTypeAnnotation))
           0 (createAliasResolver [])
           (FunctionTypeAnnotation [] VoidTypeAnnotation)
           (FunctionTypeAnnotation [] VoidTypeAnnotation) false);
    reflexivity.
Defined.

(** X2. An alias is resolved once and never chased: when the alias of a
    parameter resolves to another alias reference, [serializeArg] throws
    and reports the tag [TypeAliasTypeAnnotation]. *)
Theorem serializeArg_alias_of_alias (arg : Param) (index : nat)
        (resolveAlias : AliasResolver) (t real : TypeAnnotation)
        (nullable : bool) :
  unwrapNullable (typeAnnotation arg) = (t, nullable) ->
  ta_type t = "TypeAliasTypeAnnotation" ->
  resolveAlias (ta_name t) = Ok real ->
  ta_type real = "TypeAliasTypeAnnotation" ->
  serializeArg arg index resolveAlias =
    Throw (Error ("Unknown prop type for " ++ dq ++ name arg ++ ", found: "
                    ++ "TypeAliasTypeAnnotation" ++ dq)).
Proof.
  intros Hu Ht Hres Hreal.
  assert (Hr : realTypeAnnotation t resolveAlias = Ok real).
  { unfold realTypeAnnotation. now rewrite Ht, String.eqb_refl. }
  assert (Hrule : has_rule real = false).
  { unfold has_rule. now rewrite Hreal. }
  rewrite (serializeArg_no_rule arg index resolveAlias t real nullable
             Hu Hr Hrule).
  unfold unknownPropType, offending. now rewrite Hreal.
Qed.

Lemma serializeArg_alias_of_alias_witness :
  serializeArg (mkNamedShape "shape" (TypeAliasTypeAnnotation "A")) 0
    (createAliasResolver
       [("A", TypeAliasTypeAnnotation "B"); ("B", ObjectTypeAnnotation [])]) =
  Throw (Error ("Unknown prop type for " ++ dq ++ "shape" ++ ", found: "
                  ++ "TypeAliasTypeAnnotation" ++ dq)).
Proof.
  apply (serializeArg_alias_of_alias
           (mkNamedShape "shape" (TypeAliasTypeAnnotation "A")) 0
           (createAliasResolver
              [("A", TypeAliasTypeAnnotation "B");
               ("B", ObjectTypeAnnotation [])])
           (TypeAliasTypeAnnotation "A") (TypeAliasTypeAnnotation "B") false);
    reflexivity.
Defined.

(** X3. The alias resolver is consulted for alias references only: for a
    parameter whose unwrapped annotation is not an alias reference, any two
    resolvers give the same outcome. *)
Theorem serializeArg_resolver_unused (arg : Param) (index : nat)
        (resolveAlias1 resolveAlias2 : AliasResolver) (t : TypeAnnotation)
        (nullable : bool) :
  unwrapNullable (typeAnnotation arg) = (t, nullable) ->
  ta_type t <> "TypeAliasTypeAnnotation" ->
  serializeArg arg index resolveAlias1 = serializeArg arg index resolveAlias2.
Proof.
  intros Hu Ht. apply String.eqb_neq in Ht.
  unfold serializeArg. rewrite Hu. unfold realTypeAnnotation.
  now rewrite Ht.
Qed.

Lemma serializeArg_resolver_unused_witness :
  serializeArg (mkNamedShape "n" (NullableTypeAnnotation BooleanTypeAnnotation))
               4 (createAliasResolver []) =
  serializeArg (mkNamedShape "n" (NullableTypeAnnotation BooleanTypeAnnotation))
               4 (createAliasResolver [("A", StringTypeAnnotation)]).
Proof.
  apply (serializeArg_resolver_unused
           (mkNamedShape "n" (NullableTypeAnnotation BooleanTypeAnnotation))
           4 (createAliasResolver [])
           (createAliasResolver [("A", StringTypeAnnotation)])
           BooleanTypeAnnotation true);
    [reflexivity|discriminate].
Defined.

(** X4. The name of a parameter reaches error messages only: an expression
    returned for a parameter is returned for the same annotation under any
    other name. *)
Theorem serializeArg_name_irrelevant (name1 name2 : string)
        (annotation : TypeAnnotation) (index : nat)
        (resolveAlias : AliasResolver) (e : string) :
  serializeArg (mkNamedShape name1 annotation) index resolveAlias = Ok e ->
  serializeArg (mkNamedShape name2 annotation) index resolveAlias = Ok e.
Proof.
  unfold serializeArg. cbn [typeAnnotation name].
  destruct (unwrapNullable annotation) as [t nullable].
  destruct (realTypeAnnotation t resolveAlias) as [real|ex];
    cbn [bind]; [|discriminate].
  split_dispatch; intros H; (exact H || discriminate H).
Qed.

Lemma serializeArg_name_irrelevant_witness :
  serializeArg (mkNamedShape "b" StringTypeAnnotation) 0
               (createAliasResolver []) = Ok "args[0].asString(rt)".
Proof.
  apply (serializeArg_name_irrelevant "a" "b" StringTypeAnnotation 0
           (createAliasResolver []) "args[0].asString(rt)").
  reflexivity.
Defined.

(** X5. Of a resolved annotation only the tag and the name are read: two
    parameters of one name and nullability whose resolved annotations agree
    on both are serialized alike, whatever the element type of an array,
    the members of an object or the signature of a callback are. *)
Theorem serializeArg_reads_tag_and_name (arg1 arg2 : Param) (index : nat)
        (resolveAlias1 resolveAlias2 : AliasResolver)
        (t1 t2 real1 real2 : TypeAnnotation) (nullable : bool) :
  name arg1 = name arg2 ->
  unwrapNullable (typeAnnotation arg1) = (t1, nullable) ->
  unwrapNullable (typeAnnotation arg2) = (t2, nullable) ->
  realTypeAnnotation t1 resolveAlias1 = Ok real1 ->
  realTypeAnnotation t2 resolveAlias2 = Ok real2 ->
  ta_type real1 = ta_type real2 ->
  ta_name real1 = ta_name real2 ->
  serializeArg arg1 index resolveAlias1 = serializeArg arg2 index resolveAlias2.
Proof.
  intros Hn Hu1 Hu2 Hr1 Hr2 Htype Hname.
  unfold serializeArg. rewrite Hu1, Hu2, Hr1, Hr2. cbn [bind].
  now rewrite Hn, Htype, Hname.
Qed.

Lemma serializeArg_reads_tag_and_name_witness :
  serializeArg
    (mkNamedShape "xs" (ArrayTypeAnnotation (Some StringTypeAnnotation)))
    0 (createAliasResolver []) =
  serializeArg
    (mkNamedShape "xs" (ArrayTypeAnnotation (Some VoidTypeAnnotation)))
    0 (createAliasResolver []).
Proof.
  apply (serializeArg_reads_tag_and_name
           (mkNamedShape "xs" (ArrayTypeAnnotation (Some StringTypeAnnotation)))
           (mkNamedShape "xs" (ArrayTypeAnnotation (Some VoidTypeAnnotation)))
           0 (createAliasResolver []) (createAliasResolver [])
           (ArrayTypeAnnotation (Some StringTypeAnnotation))
           (ArrayTypeAnnotation (Some VoidTypeAnnotation))
           (ArrayTypeAnnotation (Some StringTypeAnnotation))
           (ArrayTypeAnnotation (Some VoidTypeAnnotation)) false);
    reflexivity.
Defined.

(** ** Positions *)

Lemma allDigits_string_of_uint (d : uint) :
  allDigits (NilEmpty.string_of_uint d) = true.
Proof. induction d; simpl; auto. Qed.

Lemma allDigits_string_of_nat (n : nat) : allDigits (string_of_nat n) = true.
Proof.
  unfold string_of_nat, NilZero.string_of_uint.
  destruct (Nat.to_uint n) eqn:E; try reflexivity;
    rewrite <- E; apply allDigits_string_of_uint.
Qed.

(** Two runs of digits that are each followed by a character that is no
    digit, inside equal texts, are the same run. *)
Lemma digits_prefix_unique (c1 c2 : ascii) :
  isDigit c1 = false -> isDigit c2 = false ->
  forall a b r1 r2,
    allDigits a = true -> allDigits b = true ->
    a ++ String c1 r1 = b ++ String c2 r2 -> a = b.
Proof.
  intros Hc1 Hc2.
  induction a as [|x a IH]; intros [|y b] r1 r2 Ha Hb H; simpl in *.
  - reflexivity.
  - injection H as <- _. apply andb_true_iff in Hb as [Hy _]. congruence.
  - injection H as -> _. apply andb_true_iff in Ha as [Hx _]. congruence.
  - injection H as <- H.
    apply andb_true_iff in Ha as [_ Ha]. apply andb_true_iff in Hb as [_ Hb].
    f_equal. exact (IH b r1 r2 Ha Hb H).
Qed.

(** Every expression of [wrap] opens with the boundary value of its
    index. *)
Lemma wrap_head (i : nat) (nullable : bool) (suffix : string) :
  exists rest,
    wrap i nullable suffix = "args[" ++ string_of_nat i ++ String "]" rest.
Proof.
  destruct nullable; unfold wrap; eexists;
    rewrite !append_assoc; reflexivity.
Qed.

Lemma wrap_index_inj (i j : nat) (n1 n2 : bool) (s1 s2 : string) :
  wrap i n1 s1 = wrap j n2 s2 -> i = j.
Proof.
  destruct (wrap_head i n1 s1) as [r1 ->].
  destruct (wrap_head j n2 s2) as [r2 ->].
  intros H. apply append_cancel_l in H.
  apply string_of_nat_inj.
  apply (digits_prefix_unique "]" "]") in H;
    auto using allDigits_string_of_nat.
Qed.

(** X6. An expression tells its position: whatever the parameters, their
    nullability and the resolvers are, the expressions that [serializeArg]
    returns at two different indices are different. *)
Theorem serializeArg_index_inj (arg1 arg2 : Param) (i j : nat)
        (resolveAlias1 resolveAlias2 : AliasResolver) (e1 e2 : string) :
  serializeArg arg1 i resolveAlias1 = Ok e1 ->
  serializeArg arg2 j resolveAlias2 = Ok e2 ->
  i <> j ->
  e1 <> e2.
Proof.
  intros H1 H2 Hij Heq. apply Hij.
  apply serializeArg_Ok_inv in H1 as (s1 & _ & E1).
  apply serializeArg_Ok_inv in H2 as (s2 & _ & E2).
  rewrite Heq, E2 in E1. symmetry in E1. now apply wrap_index_inj in E1.
Qed.

Lemma serializeArg_index_inj_witness :
  "args[1].asString(rt)" <> "args[11].asString(rt)".
Proof.
  apply (serializeArg_index_inj
           (mkNamedShape "a" StringTypeAnnotation)
           (mkNamedShape "b" (TypeAliasTypeAnnotation "S"))
           1 11 (createAliasResolver [])
           (createAliasResolver [("S", StringTypeAnnotation)]));
    [reflexivity|reflexivity|discriminate].
Defined.

(** ** Properties of a module *)

(** X7. The nullability of a property itself is dropped: a method whose
    function annotation is wrapped as nullable gets the trampoline and the
    registration entry of the same method without the wrapper. *)
Theorem property_nullability_ignored (hasteModuleName propertyName : string)
        (fn : TypeAnnotation) (resolveAlias : AliasResolver) :
  snd (unwrapNullable fn) = false ->
  serializePropertyIntoHostFunction hasteModuleName
    (mkNamedShape propertyName (NullableTypeAnnotation fn)) resolveAlias =
  serializePropertyIntoHostFunction hasteModuleName
    (mkNamedShape propertyName fn) resolveAlias
  /\ methodOfProperty (mkNamedShape propertyName (NullableTypeAnnotation fn)) =
     methodOfProperty (mkNamedShape propertyName fn).
Proof.
  intros Hbare. apply unwrapNullable_bare in Hbare.
  unfold serializePropertyIntoHostFunction, methodOfProperty.
  cbn [typeAnnotation name].
  rewrite unwrapNullable_wrapped, Hbare. split; reflexivity.
Qed.

Lemma property_nullability_ignored_witness :
  serializePropertyIntoHostFunction "M"
    (mkNamedShape "add" (NullableTypeAnnotation (typeAnnotation add_property)))
    (createAliasResolver []) =
  serializePropertyIntoHostFunction "M"
    (mkNamedShape "add" (typeAnnotation add_property))
    (createAliasResolver []).
Proof.
  apply (property_nullability_ignored "M" "add" (typeAnnotation add_property)
           (createAliasResolver [])).
  reflexivity.
Defined.

(** ** The first error wins *)

Lemma mapM_first_throw {A B : Type} (f : A -> result B) (x : A) (e : exn) :
  forall (pre post : list A),
    (forall x', In x' pre -> exists y, f x' = Ok y) ->
    f x = Throw e ->
    mapM f (pre ++ x :: post) = Throw e.
Proof.
  induction pre as [|x' pre IH]; simpl; intros post Hpre Hx.
  - now rewrite Hx.
  - destruct (Hpre x') as [y Hy]; [now left|]. rewrite Hy. cbn [bind].
    rewrite IH; [reflexivity| |exact Hx].
    intros z Hz. apply Hpre. now right.
Qed.

Lemma mapi_from_first_throw {A B : Type} (f : A -> nat -> result B)
      (x : A) (e : exn) :
  forall (pre post : list A) (i : nat),
    (forall j x', nth_error pre j = Some x' -> exists y, f x' (i + j) = Ok y) ->
    f x (i + List.length pre) = Throw e ->
    mapi_from f i (pre ++ x :: post) = Throw e.
Proof.
  induction pre as [|x' pre IH]; simpl; intros post i Hpre Hx.
  - rewrite Nat.add_0_r in Hx. now rewrite Hx.
  - destruct (Hpre 0 x' eq_refl) as [y Hy]. rewrite Nat.add_0_r in Hy.
    rewrite Hy. cbn [bind].
    rewrite IH; [reflexivity| |].
    + intros j z Hz. rewrite Nat.add_succ_l, <- Nat.add_succ_r.
      now apply (Hpre (S j)).
    + now rewrite Nat.add_succ_l, <- Nat.add_succ_r.
Qed.

Lemma mapM_Ok_iff {A B : Type} (f : A -> result B) (xs : list A) :
  (exists ys, mapM f xs = Ok ys) <-> Forall (fun x => exists y, f x = Ok y) xs.
Proof.
  induction xs as [|x xs IH]; simpl.
  - split; [constructor|now exists []].
  - split.
    + intros [ys H]. apply bind_Ok_inv in H as (y & Hy & H).
      apply bind_Ok_inv in H as (ys' & Hys & _).
      constructor; [now exists y|]. apply IH. now exists ys'.
    + intros H. inversion H as [|? ? [y Hy] Hxs]; subst.
      apply IH in Hxs as [ys Hys]. exists (y :: ys).
      now rewrite Hy, Hys.
Qed.

(** X8. Parameters are serialized from left to right and the first one
    that fails decides: when the parameters before position [k] serialize
    and the one at [k] throws [e], the trampoline is not emitted and [e] is
    thrown, whatever follows. *)
Theorem serializeProperty_first_param_error (hasteModuleName : string)
        (property : NativeModulePropertyShape) (resolveAlias : AliasResolver)
        (params : list (string * TypeAnnotation)) (ret : TypeAnnotation)
        (nullable : bool) (pre post : list Param) (p : Param) (e : exn) :
  unwrapNullable (typeAnnotation property) =
    (FunctionTypeAnnotation params ret, nullable) ->
  params_of params = (pre ++ p :: post)%list ->
  (forall j q, nth_error pre j = Some q ->
               exists expr, serializeArg q j resolveAlias = Ok expr) ->
  serializeArg p (List.length pre) resolveAlias = Throw e ->
  serializePropertyIntoHostFunction hasteModuleName property resolveAlias =
    Throw e.
Proof.
  intros Hu Hparams Hpre Hp.
  unfold serializePropertyIntoHostFunction. rewrite Hu.
  cbn [ta_returnTypeAnnotation ta_params]. rewrite Hparams.
  unfold mapi.
  rewrite (mapi_from_first_throw
             (fun p i => serializeArg p i resolveAlias) p e pre post 0);
    [reflexivity|exact Hpre|exact Hp].
Qed.

Lemma serializeProperty_first_param_error_witness :
  serializePropertyIntoHostFunction "M"
    (mkNamedShape "f"
       (FunctionTypeAnnotation
          [("a", StringTypeAnnotation); ("b", VoidTypeAnnotation);
           ("c", PromiseTypeAnnotation)]
          VoidTypeAnnotation))
    (createAliasResolver []) =
  Throw (unknownPropType "b" "VoidTypeAnnotation").
Proof.
  apply (serializeProperty_first_param_error "M"
           (mkNamedShape "f"
              (FunctionTypeAnnotation
                 [("a", StringTypeAnnotation); ("b", VoidTypeAnnotation);
                  ("c", PromiseTypeAnnotation)]
                 VoidTypeAnnotation))
           (createAliasResolver [])
           [("a", StringTypeAnnotation); ("b", VoidTypeAnnotation);
            ("c", PromiseTypeAnnotation)]
           VoidTypeAnnotation false
           [mkNamedShape "a" StringTypeAnnotation]
           [mkNamedShape "c" PromiseTypeAnnotation]
           (mkNamedShape "b" VoidTypeAnnotation)).
  - reflexivity.
  - reflexivity.
  - intros [|[|j]] q Hq; simpl in Hq; try discriminate.
    injection Hq as <-. now eexists.
  - reflexivity.
Defined.

(** X9. Properties are serialized in declaration order and the first one
    that fails decides: when the trampolines of the properties before it
    are emitted and its own throws [e], the module is not emitted and [e]
    is thrown. *)
Theorem emitModule_first_property_error (hasteModuleName : string)
        (nativeModule : NativeModuleSchema)
        (pre post : list NativeModulePropertyShape)
        (p : NativeModulePropertyShape) (e : exn) :
  properties nativeModule = (pre ++ p :: post)%list ->
  (forall q, In q pre ->
             exists text,
               serializePropertyIntoHostFunction hasteModuleName q
                 (createAliasResolver (aliases nativeModule)) = Ok text) ->
  serializePropertyIntoHostFunction hasteModuleName p
    (createAliasResolver (aliases nativeModule)) = Throw e ->
  emitModule hasteModuleName nativeModule = Throw e.
Proof.
  intros Hprops Hpre Hp. unfold emitModule. rewrite Hprops.
  rewrite (mapM_first_throw _ p e pre post Hpre Hp). reflexivity.
Qed.

Lemma emitModule_first_property_error_witness :
  emitModule "M"
    (mkNativeModuleSchema []
       [add_property;
        mkNamedShape "open"
          (FunctionTypeAnnotation [("nothing", VoidTypeAnnotation)]
                                  VoidTypeAnnotation)]
       ["M"]) =
  Throw (unknownPropType "nothing" "VoidTypeAnnotation").
Proof.
  apply (emitModule_first_property_error "M"
           (mkNativeModuleSchema []
              [add_property;
               mkNamedShape "open"
                 (FunctionTypeAnnotation [("nothing", VoidTypeAnnotation)]
                                         VoidTypeAnnotation)]
              ["M"])
           [add_property] []
           (mkNamedShape "open"
              (FunctionTypeAnnotation [("nothing", VoidTypeAnnotation)]
                                      VoidTypeAnnotation))).
  - reflexivity.
  - intros q [<-|[]]. now eexists.
  - reflexivity.
Defined.

(** X10. Modules are emitted in schema order and the first one that fails
    decides: with distinct module keys, when the modules before it are
    emitted and its own emission throws [e], [generate] returns no file and
    throws [e]. *)
Theorem generate_first_module_error (libraryName : string)
        (schema : SchemaType) (packageName : option string)
        (assumeNonnull : option bool)
        (pre post : list (string * NativeModuleSchema))
        (hasteModuleName : string) (nativeModule : NativeModuleSchema)
        (e : exn) :
  NoDup (map fst (modules schema)) ->
  modules schema = (pre ++ (hasteModuleName, nativeModule) :: post)%list ->
  (forall entry, In entry pre ->
                 exists text, emitModule (fst entry) (snd entry) = Ok text) ->
  emitModule hasteModuleName nativeModule = Throw e ->
  generate libraryName schema packageName assumeNonnull = Throw e.
Proof.
  intros Hnd Hmods Hpre He. unfold generate, getModules.
  rewrite (mapM_generateModule (modules schema) Hnd), Hmods.
  rewrite (mapM_first_throw
             (fun entry => emitModule (fst entry) (snd entry))
             (hasteModuleName, nativeModule) e pre post Hpre He).
  reflexivity.
Qed.

Lemma generate_first_module_error_witness :
  generate "Lib"
    (mkSchemaType
       [("M", module_M);
        ("N", mkNativeModuleSchema []
                [mkNamedShape "run"
                   (FunctionTypeAnnotation [("p", PromiseTypeAnnotation)]
                                           VoidTypeAnnotation)]
                ["N"])])
    None None =
  Throw (unknownPropType "p" "PromiseTypeAnnotation").
Proof.
  apply (generate_first_module_error "Lib"
           (mkSchemaType
              [("M", module_M);
               ("N", mkNativeModuleSchema []
                       [mkNamedShape "run"
                          (FunctionTypeAnnotation
                             [("p", PromiseTypeAnnotation)]
                             VoidTypeAnnotation)]
                       ["N"])])
           None None [("M", module_M)] [] "N"
           (mkNativeModuleSchema []
              [mkNamedShape "run"
                 (FunctionTypeAnnotation [("p", PromiseTypeAnnotation)]
                                         VoidTypeAnnotation)]
              ["N"])).
  - repeat constructor; simpl; intuition discriminate.
  - reflexivity.
  - intros entry [<-|[]]. now eexists.
  - reflexivity.
Defined.

(** X11. All or nothing: with distinct module keys, [generate] returns a
    file map exactly when every module of the schema is emitted; and then
    every parameter of every property of every module was serialized at
    its position. *)
Theorem generate_Ok_iff_all_emitted (libraryName : string)
        (schema : SchemaType) (packageName : option string)
        (assumeNonnull : option bool) :
  NoDup (map fst (modules schema)) ->
  ((exists out,
       generate libraryName schema packageName assumeNonnull = Ok out)
   <-> Forall (fun entry =>
                 exists text, emitModule (fst entry) (snd entry) = Ok text)
              (modules schema))
  /\ ((exists out,
         generate libraryName schema packageName assumeNonnull = Ok out) ->
      forall hasteModuleName nativeModule p i param,
        In (hasteModuleName, nativeModule) (modules schema) ->
        In p (properties nativeModule) ->
        nth_error (params_of (propertyParams p)) i = Some param ->
        exists e,
          serializeArg param i (createAliasResolver (aliases nativeModule))
            = Ok e).
Proof.
  intros Hnd.
  assert (Hiff :
            (exists out,
                generate libraryName schema packageName assumeNonnull = Ok out)
            <-> Forall (fun entry =>
                          exists text,
                            emitModule (fst entry) (snd entry) = Ok text)
                       (modules schema)).
  { rewrite <- mapM_Ok_iff. unfold generate, getModules.
    rewrite (mapM_generateModule (modules schema) Hnd).
    split.
    - intros [out H]. apply bind_Ok_inv in H as (texts & Ht & _).
      now exists texts.
    - intros [texts Ht]. rewrite Ht. cbn [bind]. now eexists. }
  split; [exact Hiff|].
  intros Hok h m p i param Hin Hp Hnth.
  apply Hiff in Hok. rewrite Forall_forall in Hok.
  destruct (Hok (h, m) Hin) as [text Ht]. cbn [fst snd] in Ht.
  unfold emitModule in Ht.
  apply bind_Ok_inv in Ht as (hostFunctions & Hhf & _).
  assert (Hall : exists ys,
             mapM (fun property =>
                     serializePropertyIntoHostFunction h property
                       (createAliasResolver (aliases m)))
                  (properties m) = Ok ys) by now exists hostFunctions.
  apply mapM_Ok_iff in Hall. rewrite Forall_forall in Hall.
  destruct (Hall p Hp) as [hf Hhfp].
  apply serializePropertyIntoHostFunction_args in Hhfp
    as (isVoid & args & _ & Hargs).
  destruct (Hargs i param Hnth) as (e & _ & He). now exists e.
Qed.

Lemma generate_Ok_iff_all_emitted_witness :
  (exists out, generate "Lib" schema_M None None = Ok out)
  <-> Forall (fun entry =>
                exists text, emitModule (fst entry) (snd entry) = Ok text)
             (modules schema_M).
Proof.
  apply (generate_Ok_iff_all_emitted "Lib" schema_M None None).
  repeat constructor; simpl; tauto.
Defined.

(** X12. The library name reaches the file name and the include line only:
    a run under another library name throws the same exception, or returns
    the one file [<libraryName>JSI-generated.cpp] whose text is the fixed
    header, [#include "<libraryName>JSI.h"], and the same module text
    between the same namespace lines. *)
Theorem generate_libraryName_only_in_frame (libraryName1 libraryName2 : string)
        (schema : SchemaType) (packageName : option string)
        (assumeNonnull : option bool) :
  let nl := String "010"%char EmptyString in
  let dq := String "034"%char EmptyString in
  let fileText := fun libraryName moduleText : string =>
    "/**" ++ nl
      ++ " * This code was generated by [react-native-codegen](https://www.npmjs.com/package/react-native-codegen)." ++ nl
      ++ " *" ++ nl
      ++ " * Do not edit this file as changes may cause incorrect behavior and will be lost" ++ nl
      ++ " * once the code is regenerated." ++ nl
      ++ " *" ++ nl
      ++ " * @generated by codegen project: GenerateModuleH.js" ++ nl
      ++ " */" ++ nl
      ++ nl
      ++ "#include " ++ dq ++ libraryName ++ "JSI.h" ++ dq ++ nl
      ++ nl
      ++ "namespace facebook {" ++ nl
      ++ "namespace react {" ++ nl
      ++ nl
      ++ moduleText ++ nl
      ++ nl
      ++ nl
      ++ "} // namespace react" ++ nl
      ++ "} // namespace facebook" ++ nl in
  (forall e,
      generate libraryName1 schema packageName assumeNonnull = Throw e ->
      generate libraryName2 schema packageName assumeNonnull = Throw e)
  /\ (forall out,
        generate libraryName1 schema packageName assumeNonnull = Ok out ->
        exists moduleText,
          out = [(libraryName1 ++ "JSI-generated.cpp",
                  fileText libraryName1 moduleText)]
          /\ generate libraryName2 schema packageName assumeNonnull =
             Ok [(libraryName2 ++ "JSI-generated.cpp",
                  fileText libraryName2 moduleText)]).
Proof.
  intros nl' dq' fileText. subst nl' dq' fileText. cbv beta.
  change (String "010"%char EmptyString) with nl.
  change (String "034"%char EmptyString) with dq.
  unfold generate.
  destruct (mapM (generateModule (getModules schema))
                 (map fst (getModules schema))) as [texts|ex]; cbn [bind].
  - split; [discriminate|].
    intros out H. injection H as <-. exists (join nl texts).
    rewrite !FileTemplate_text. split; reflexivity.
  - split; [intros e H; exact H|discriminate].
Qed.

Lemma generate_libraryName_only_in_frame_witness :
  exists moduleText,
    generate "Other" schema_M None None =
      Ok [("OtherJSI-generated.cpp",
           "/**" ++ nl
             ++ " * This code was generated by [react-native-codegen](https://www.npmjs.com/package/react-native-codegen)." ++ nl
             ++ " *" ++ nl
             ++ " * Do not edit this file as changes may cause incorrect behavior and will be lost" ++ nl
             ++ " * once the code is regenerated." ++ nl
             ++ " *" ++ nl
             ++ " * @generated by codegen project: GenerateModuleH.js" ++ nl
             ++ " */" ++ nl
             ++ nl
             ++ "#include " ++ dq ++ "OtherJSI.h" ++ dq ++ nl
             ++ nl
             ++ "namespace facebook {" ++ nl
             ++ "namespace react {" ++ nl
             ++ nl
             ++ moduleText ++ nl
             ++ nl
             ++ nl
             ++ "} // namespace react" ++ nl
             ++ "} // namespace facebook" ++ nl)].
Proof.
  destruct (proj2 (generate_libraryName_only_in_frame "Lib" "Other" schema_M
                     None None) _ eq_refl) as (moduleText & _ & Hother).
  exists moduleText. exact Hother.
Defined.

(** X13. A method without parameters cannot fail: whatever its return
    annotation, the module identifier and the alias resolver are, its
    trampoline is emitted, and its text calls the method as [-><name>(rt);]
    (as a statement before [return jsi::Value::undefined();] for a void
    return, as the returned value otherwise); the registration line made
    for it reads [MethodMetadata {0, ...}]. *)
Theorem property_without_params (hasteModuleName : string)
        (property : NativeModulePropertyShape) (resolveAlias : AliasResolver)
        (ret : TypeAnnotation) (nullable : bool) :
  let nl := String "010"%char EmptyString in
  let dq := String "034"%char EmptyString in
  let call :=
    "static_cast<" ++ hasteModuleName ++ "CxxSpecJSI *>(&turboModule)->"
      ++ name property ++ "(rt);" in
  unwrapNullable (typeAnnotation property) =
    (FunctionTypeAnnotation [] ret, nullable) ->
  serializePropertyIntoHostFunction hasteModuleName property resolveAlias =
    Ok ("static jsi::Value __hostFunction_" ++ hasteModuleName
          ++ "CxxSpecJSI_" ++ name property
          ++ "(jsi::Runtime &rt, TurboModule &turboModule, const jsi::Value* args, size_t count) {"
          ++ (if ta_type ret =? "VoidTypeAnnotation"
              then nl ++ "  " ++ call ++ nl
                      ++ "  return jsi::Value::undefined();"
              else nl ++ "  return " ++ call)
          ++ nl ++ "}")
  /\ exists m,
      methodOfProperty property = Ok m /\
      methodMapEntry hasteModuleName m =
        "  methodMap_[" ++ dq ++ name property ++ dq
          ++ "] = MethodMetadata {0, __hostFunction_" ++ hasteModuleName
          ++ "CxxSpecJSI_" ++ name property ++ "};".
Proof.
  intros nl' dq' call Hu. subst nl' dq' call.
  change (String "010"%char EmptyString) with nl.
  change (String "034"%char EmptyString) with dq.
  unfold serializePropertyIntoHostFunction, methodOfProperty. rewrite Hu.
  cbn [ta_returnTypeAnnotation ta_params params_of map mapi mapi_from bind
       List.length].
  split.
  - rewrite HostFunctionTemplate_text.
    destruct (ta_type ret =? "VoidTypeAnnotation"); f_equal; text_eq.
  - eexists. split; [reflexivity|].
    rewrite methodMapEntry_text. reflexivity.
Qed.

Lemma property_without_params_witness :
  serializePropertyIntoHostFunction "M"
    (mkNamedShape "reset"
       (NullableTypeAnnotation (FunctionTypeAnnotation [] PromiseTypeAnnotation)))
    (createAliasResolver []) =
  Ok ("static jsi::Value __hostFunction_MCxxSpecJSI_reset(jsi::Runtime &rt, TurboModule &turboModule, const jsi::Value* args, size_t count) {"
        ++ nl
        ++ "  return static_cast<MCxxSpecJSI *>(&turboModule)->reset(rt);"
        ++ nl ++ "}").
Proof.
  apply (property_without_params "M"
           (mkNamedShape "reset"
              (NullableTypeAnnotation
                 (FunctionTypeAnnotation [] PromiseTypeAnnotation)))
           (createAliasResolver []) PromiseTypeAnnotation true).
  reflexivity.
Defined.

(** X14. A module that declares no external name is no error: it is
    emitted whenever its properties are, and its registration constructor
    opens with [TurboModule("undefined", jsInvoker)]. *)
Theorem emitModule_without_moduleNames (hasteModuleName : string)
        (nativeModule : NativeModuleSchema) (first : string)
        (text : string) :
  moduleNames nativeModule = [] ->
  emitModule hasteModuleName
    (mkNativeModuleSchema (aliases nativeModule) (properties nativeModule)
                          [first]) = Ok text ->
  exists hostFunctions methods,
    emitModule hasteModuleName nativeModule =
      Ok (join nl hostFunctions ++ nl ++ nl
            ++ hasteModuleName ++ "CxxSpecJSI::" ++ hasteModuleName
            ++ "CxxSpecJSI(std::shared_ptr<CallInvoker> jsInvoker)" ++ nl
            ++ "  : TurboModule(" ++ dq ++ "undefined" ++ dq
            ++ ", jsInvoker) {" ++ nl
            ++ join nl (map (methodMapEntry hasteModuleName) methods) ++ nl
            ++ "}").
Proof.
  intros Hnames. unfold emitModule. cbn [aliases properties moduleNames].
  rewrite Hnames. intros H.
  apply bind_Ok_inv in H as (hostFunctions & Hhf & H).
  apply bind_Ok_inv in H as (methods & Hm & _).
  exists hostFunctions, methods. rewrite Hhf, Hm. reflexivity.
Qed.

Lemma emitModule_without_moduleNames_witness :
  exists hostFunctions methods,
    emitModule "M" (mkNativeModuleSchema [] [add_property] []) =
      Ok (join nl hostFunctions ++ nl ++ nl
            ++ "M" ++ "CxxSpecJSI::" ++ "M"
            ++ "CxxSpecJSI(std::shared_ptr<CallInvoker> jsInvoker)" ++ nl
            ++ "  : TurboModule(" ++ dq ++ "undefined" ++ dq
            ++ ", jsInvoker) {" ++ nl
            ++ join nl (map (methodMapEntry "M") methods) ++ nl
            ++ "}").
Proof.
  apply (emitModule_without_moduleNames "M"
           (mkNativeModuleSchema [] [add_property] []) "M" text_M);
    reflexivity.
Defined.

(** ** Identifiers *)

(** X15. Inside one module, methods of different names get trampolines of
    different identifiers. *)
Theorem hostFunctionName_distinct_methods
        (hasteModuleName method1 method2 : string) :
  method1 <> method2 ->
  hostFunctionName hasteModuleName method1
    <> hostFunctionName hasteModuleName method2.
Proof.
  intros Hneq Heq. apply Hneq. unfold hostFunctionName in Heq.
  now repeat apply append_cancel_l in Heq.
Qed.

Lemma hostFunctionName_distinct_methods_witness :
  hostFunctionName "M" "add" <> hostFunctionName "M" "addAll".
Proof.
  apply (hostFunctionName_distinct_methods "M" "add" "addAll").
  discriminate.
Defined.

(** X16. The identifier does not keep module and method apart: nothing is
    escaped, so the method [m] of the module [<h>CxxSpecJSI_<x>] and the
    method [<x>CxxSpecJSI_<m>] of the module [h], two different modules,
    get the same trampoline identifier. *)
Theorem hostFunctionName_collision (h x m : string) :
  h ++ "CxxSpecJSI_" ++ x <> h
  /\ hostFunctionName (h ++ "CxxSpecJSI_" ++ x) m =
     hostFunctionName h (x ++ "CxxSpecJSI_" ++ m).
Proof.
  split.
  - intros H. apply (f_equal String.length) in H.
    rewrite append_length in H. simpl in H. lia.
  - unfold hostFunctionName. now rewrite !append_assoc.
Qed.

(** * Further properties of UserFlow *)

(** X17. The flow id made by [newFlowId] always carries the marker id it
    was given, whatever the instance key, the entry points installed and
    the native side are. *)
Theorem UserFlow_newFlowId_markerId (World PointData : Type)
        (global : UserFlow.Global World PointData)
        (markerId : Z) (instanceKey : option Z) (w : World) :
  UserFlow.markerId (fst (UserFlow.newFlowId global markerId instanceKey w))
  = markerId.
Proof.
  unfold UserFlow.newFlowId.
  destruct (_ =? UserFlow.AUTO_INSTANCE_KEY)%Z; [|reflexivity].
  destruct (UserFlow.nativeUserFlowNextInstanceKey _ _ global)
    as [native|]; [|reflexivity].
  now destruct (native markerId w).
Qed.

(** X18. The documented flow, with the entry points installed: the key
    that the native side issues for the marker id is the one that [start],
    [addAnnotation], [addPoint] and [endSuccess] hand back to it, each in
    one call, in the order of the calls. *)
Theorem UserFlow_documented_flow (World PointData : Type)
        (global : UserFlow.Global World PointData)
        (nextKey : Z -> World -> Z * World)
        (nStart : Z -> Z -> string -> bool -> World -> World)
        (nAnnotate : Z -> Z -> string -> string + bool -> World -> World)
        (nPoint : Z -> Z -> string -> option PointData -> World -> World)
        (nSuccess : Z -> Z -> World -> World)
        (markerId : Z) (options : UserFlow.StartOptions)
        (annotationName : string) (annotationValue : string + bool)
        (pointName : string) (w : World) :
  UserFlow.nativeUserFlowNextInstanceKey _ _ global = Some nextKey ->
  UserFlow.nativeUserFlowStart _ _ global = Some nStart ->
  UserFlow.nativeUserFlowAddAnnotation _ _ global = Some nAnnotate ->
  UserFlow.nativeUserFlowAddPoint _ _ global = Some nPoint ->
  UserFlow.nativeUserFlowEndSuccess _ _ global = Some nSuccess ->
  let flowId := fst (UserFlow.newFlowId global markerId None w) in
  let w0 := snd (UserFlow.newFlowId global markerId None w) in
  let key := fst (nextKey markerId w) in
  UserFlow.endSuccess global flowId
    (UserFlow.addPoint global flowId pointName None
       (UserFlow.addAnnotation global flowId annotationName annotationValue
          (UserFlow.start global flowId options w0))) =
  nSuccess markerId key
    (nPoint markerId key pointName None
       (nAnnotate markerId key annotationName annotationValue
          (nStart markerId key (UserFlow.triggerSource options)
                  (UserFlow.cancelOnBackground options)
                  (snd (nextKey markerId w))))).
Proof.
  intros Hk Hs Ha Hp He.
  unfold UserFlow.newFlowId, UserFlow.start, UserFlow.addAnnotation,
    UserFlow.addPoint, UserFlow.endSuccess.
  rewrite Hk, Hs, Ha, Hp, He, Z.eqb_refl.
  destruct (nextKey markerId w) as [key w']. reflexivity.
Qed.

Lemma UserFlow_documented_flow_witness :
  let flowId := fst (UserFlow.newFlowId recordingGlobal 7%Z None []) in
  let w0 := snd (UserFlow.newFlowId recordingGlobal 7%Z None []) in
  UserFlow.endSuccess recordingGlobal flowId
    (UserFlow.addPoint recordingGlobal flowId "reload" None
       (UserFlow.addAnnotation recordingGlobal flowId "cached" (inl "true")
          (UserFlow.start recordingGlobal flowId
             (UserFlow.mkStartOptions "user_click" true) w0))) =
  [NextInstanceKey 7%Z; Start 7%Z 100%Z "user_click" true;
   AddAnnotation 7%Z 100%Z "cached" (inl "true");
   AddPoint 7%Z 100%Z "reload" None; EndSuccess 7%Z 100%Z].
Proof.
  intros flowId w0. subst flowId w0.
  rewrite (UserFlow_documented_flow (list NativeCall) string recordingGlobal
             _ _ _ _ _ 7%Z (UserFlow.mkStartOptions "user_click" true)
             "cached" (inl "true") "reload" []
             eq_refl eq_refl eq_refl eq_refl eq_refl).
  reflexivity.
Defined.

(** X19. The documented flow, with nothing installed: the flow id is the
    marker id with instance key [0], and the flow leaves the native side
    as it was. *)
Theorem UserFlow_nothing_installed (World PointData : Type)
        (global : UserFlow.Global World PointData)
        (markerId : Z) (options : UserFlow.StartOptions)
        (annotationName : string) (annotationValue : string + bool)
        (pointName : string) (data : option PointData) (w : World) :
  UserFlow.nativeUserFlowNextInstanceKey _ _ global = None ->
  UserFlow.nativeUserFlowStart _ _ global = None ->
  UserFlow.nativeUserFlowAddAnnotation _ _ global = None ->
  UserFlow.nativeUserFlowAddPoint _ _ global = None ->
  UserFlow.nativeUserFlowEndSuccess _ _ global = None ->
  UserFlow.newFlowId global markerId None w =
    (UserFlow.mkFlowId markerId 0%Z, w)
  /\ forall flowId,
      UserFlow.endSuccess global flowId
        (UserFlow.addPoint global flowId pointName data
           (UserFlow.addAnnotation global flowId annotationName
              annotationValue
              (UserFlow.start global flowId options w))) = w.
Proof.
  intros Hk Hs Ha Hp He.
  unfold UserFlow.newFlowId, UserFlow.start, UserFlow.addAnnotation,
    UserFlow.addPoint, UserFlow.endSuccess.
  rewrite Hk, Hs, Ha, Hp, He, Z.eqb_refl. split; reflexivity.
Qed.

Lemma UserFlow_nothing_installed_witness :
  UserFlow.newFlowId bareGlobal 7%Z None [] = (UserFlow.mkFlowId 7%Z 0%Z, []).
Proof.
  apply (UserFlow_nothing_installed (list NativeCall) string bareGlobal
           7%Z (UserFlow.mkStartOptions "user_click" true)
           "cached" (inl "true") "reload" None []);
    reflexivity.
Defined.
